(** * CalendarAgent: the availability search and the booking retry loop

    A shallow embedding of [CalendarService.find_available_slots] and
    [CalendarService.create_event] of [agents.py], with the properties
    the specification states about them.

    Conventions of the embedding:
    - a naive [datetime] is the number of microseconds since midnight of
      proleptic Gregorian ordinal 0, a [date] is its ordinal
      ([date.toordinal()]), a [timedelta] is a number of microseconds;
    - Python exceptions are values of [PyExn]; a computation that can
      raise returns [Py A];
    - the clock, the calendar backend and [str()] on exception objects
      are inputs of the model (the record [World] and a section variable);
    - a [while] loop is a fixpoint on a fuel counter that returns [None]
      when the counter runs out; the lemmas [slot_loop_returns] and
      [insert_loop_returns] show that the counters used are enough. *)

From stdpp Require Import base numbers option list list_numbers sorting strings pretty gmap.

#[local] Set Warnings "-register-all".

Local Open Scope Z_scope.

(** ** Exceptions *)

Inductive PyExn : Type :=
  | OverflowError                    (* date, datetime or timedelta out of range *)
  | TypeError                        (* ordering a naive against an aware datetime,
                                        membership test on [None] *)
  | ValidationError (fields : string) (* pydantic: the fields that fail *)
  | Raised (cls msg : string).       (* raised by a collaborator: backend, parser *)

Inductive Py (A : Type) : Type :=
  | Return (a : A)
  | Raise (e : PyExn).
Arguments Return {A} a.
Arguments Raise {A} e.

(** Sequencing: the first exception raised ends the computation. *)
Definition py_bind {A B : Type} (m : Py A) (f : A → Py B) : Py B :=
  match m with
  | Return a => f a
  | Raise e => Raise e
  end.

Notation "x <- m ;; k" := (py_bind m (λ x, k))
  (at level 100, m at next level, right associativity, only parsing).

(** ** [datetime], [date] and [timedelta] arithmetic *)

Module PyDatetime.

Definition US_PER_MINUTE : Z := 60000000.
Definition US_PER_DAY : Z := 86400000000.
Definition MAX_DELTA_DAYS : Z := 999999999.
Definition MINORDINAL : Z := 1.        (* date.min.toordinal() *)
Definition MAXORDINAL : Z := 3652059.  (* date.max.toordinal() *)

(** [timedelta(...)] raises [OverflowError] when the normalised number
    of days has a magnitude above 999999999. *)
Definition timedelta_of (us : Z) : Py Z :=
  if (- MAX_DELTA_DAYS <=? us `div` US_PER_DAY) && (us `div` US_PER_DAY <=? MAX_DELTA_DAYS)
  then Return us else Raise OverflowError.

Definition timedelta_minutes (minutes : Z) : Py Z := timedelta_of (minutes * US_PER_MINUTE).
Definition timedelta_days (days : Z) : Py Z := timedelta_of (days * US_PER_DAY).

(** [datetime + timedelta]; the result has to be a datetime of the
    years 1 to 9999. *)
Definition datetime_add (dt td : Z) : Py Z :=
  if (MINORDINAL * US_PER_DAY <=? dt + td) && (dt + td <? (MAXORDINAL + 1) * US_PER_DAY)
  then Return (dt + td) else Raise OverflowError.

(** [date + timedelta] uses the days of the timedelta only. *)
Definition date_add (d td : Z) : Py Z :=
  let o := d + td `div` US_PER_DAY in
  if (0 <? o) && (o <=? MAXORDINAL) then Return o else Raise OverflowError.

(** [datetime.date()] and [date.weekday()] (Monday is 0, Sunday is 6). *)
Definition date_of (dt : Z) : Z := dt `div` US_PER_DAY.
Definition weekday (d : Z) : Z := (d + 6) `mod` 7.

(** [datetime.combine(date, time)], the time given in microseconds
    since midnight. *)
Definition combine (d tod : Z) : Z := d * US_PER_DAY + tod.

(** [datetime.strptime("HH:MM", "%H:%M").time()] *)
Definition time_of_day (hh mm : Z) : Z := (hh * 60 + mm) * US_PER_MINUTE.

(** A datetime as [datetime.fromisoformat] builds it: naive (no UTC
    offset in the text) or aware (the instant in UTC). *)
Inductive datetime : Type :=
  | Naive (us : Z)
  | Aware (utc_us : Z).

(** [a <= b] and [a >= b] for a naive [a]: an aware [b] cannot be
    ordered against it. *)
Definition naive_le (a : Z) (b : datetime) : Py bool :=
  match b with
  | Naive t => Return (a <=? t)
  | Aware _ => Raise TypeError
  end.

Definition naive_ge (a : Z) (b : datetime) : Py bool :=
  match b with
  | Naive t => Return (a >=? t)
  | Aware _ => Raise TypeError
  end.

End PyDatetime.
Import PyDatetime.

(** ** Data models *)

(** [TimeSlot]: [start] and [end] hold the ISO-8601 text of a naive
    datetime ([isoformat()], one text per datetime); the model keeps the
    datetime. *)
Record TimeSlot : Type := mkTimeSlot { start : Z; end_ : Z }.

Record AvailableSlotsResponse : Type := mkAvailableSlotsResponse {
  available_slots : list TimeSlot;
  selected_slot : option TimeSlot;
  notes : string
}.

(** What the tool hands back: the pydantic model object itself, or the
    plain dict that [model_dump()] makes of one. *)
Inductive SlotsReturn : Type :=
  | ModelObject (r : AvailableSlotsResponse)
  | PlainDict (r : AvailableSlotsResponse).

Definition response_of (r : SlotsReturn) : AvailableSlotsResponse :=
  match r with ModelObject a => a | PlainDict a => a end.

(** A time text of the free/busy answer, by what
    [datetime.fromisoformat(text.replace('Z', '+00:00'))] makes of it. *)
Inductive IsoText : Type :=
  | IsoNaive (us : Z)       (* no offset and no Z: a naive datetime *)
  | IsoAware (utc_us : Z)   (* ends in Z or in an offset: an aware datetime *)
  | IsoInvalid (e : PyExn). (* the lookup or the parser raises *)

Definition fromisoformat (t : IsoText) : Py datetime :=
  match t with
  | IsoNaive us => Return (Naive us)
  | IsoAware us => Return (Aware us)
  | IsoInvalid e => Raise e
  end.

(** One entry of the [busy] list: [busy['start']] and [busy['end']]. *)
Record BusyInterval : Type := mkBusy { busy_start_text : IsoText; busy_end_text : IsoText }.

(** The answer of [freebusy().query(...).execute()]:
    [{'calendars': {id: {'busy': [...]}}}], every level optional. *)
Record FreeBusyCalendar : Type := mkCalendar { busy : option (list BusyInterval) }.
Record FreeBusyResult : Type := mkFreeBusyResult { calendars : option (gmap string FreeBusyCalendar) }.

(** The body of the free/busy query ([items] is always the primary
    calendar); the two bounds are sent as [isoformat() + 'Z']. *)
Record FreeBusyQuery : Type := mkQuery { timeMin : Z; timeMax : Z; items : list string }.

(** ** The three loops of [find_available_slots] *)

(** Lines 148-155: the [for busy in busy_slots] loop; the result is the
    final value of [slot_is_free]. *)
Fixpoint slot_is_free (busy_slots : list BusyInterval) (slot_start slot_end : Z) : Py bool :=
  match busy_slots with
  | [] => Return true
  | b :: rest =>
      busy_start <- fromisoformat (busy_start_text b) ;;
      busy_end <- fromisoformat (busy_end_text b) ;;
      before <- naive_le slot_end busy_start ;;
      if before then slot_is_free rest slot_start slot_end
      else
        after <- naive_ge slot_start busy_end ;;
        if after then slot_is_free rest slot_start slot_end
        else Return false
  end.

(** Lines 145-163: one turn of the [while] loop; gives the next
    [slot_start] and the grown [available_slots]. *)
Definition slot_body (busy_slots : list BusyInterval) (duration_minutes : Z)
    (slot_start : Z) (available_slots : list TimeSlot) : Py (Z * list TimeSlot) :=
  td <- timedelta_minutes duration_minutes ;;
  slot_end <- datetime_add slot_start td ;;
  free <- slot_is_free busy_slots slot_start slot_end ;;
  let available_slots :=
    if free then available_slots ++ [mkTimeSlot slot_start slot_end] else available_slots in
  step <- timedelta_minutes 15 ;;
  slot_start <- datetime_add slot_start step ;;
  Return (slot_start, available_slots).

(** Line 144: [while slot_start + timedelta(minutes=duration_minutes) <= end_time]. *)
Fixpoint slot_loop (fuel : nat) (busy_slots : list BusyInterval) (duration_minutes : Z)
    (end_time slot_start : Z) (available_slots : list TimeSlot)
    : option (Py (list TimeSlot)) :=
  match fuel with
  | O => None
  | S fuel =>
      match td <- timedelta_minutes duration_minutes ;; datetime_add slot_start td with
      | Raise e => Some (Raise e)
      | Return probe =>
          if probe <=? end_time then
            match slot_body busy_slots duration_minutes slot_start available_slots with
            | Raise e => Some (Raise e)
            | Return (slot_start, available_slots) =>
                slot_loop fuel busy_slots duration_minutes end_time slot_start available_slots
            end
          else Some (Return available_slots)
      end
  end.

(** Turns of the [while] loop of one day, the last test included: the
    window is 420 minutes and the cursor moves by 15. *)
Definition slot_fuel (duration_minutes : Z) : nat :=
  S (Z.to_nat ((420 - duration_minutes) `div` 15 + 1)).

(** Lines 131-163: [for day in range(days_ahead)], over the list of the
    days still to visit. *)
Fixpoint day_loop (days : list Z) (busy_slots : list BusyInterval) (duration_minutes : Z)
    (current_date : Z) (available_slots : list TimeSlot) : option (Py (list TimeSlot)) :=
  match days with
  | [] => Some (Return available_slots)
  | day :: rest =>
      match td <- timedelta_days day ;; date_add current_date td with
      | Raise e => Some (Raise e)
      | Return day_date =>
          if weekday day_date >=? 5 then
            day_loop rest busy_slots duration_minutes current_date available_slots
          else
            let start_time := combine day_date (time_of_day 10 0) in
            let end_time := combine day_date (time_of_day 17 0) in
            match slot_loop (slot_fuel duration_minutes) busy_slots duration_minutes
                    end_time start_time available_slots with
            | None => None
            | Some (Raise e) => Some (Raise e)
            | Some (Return available_slots) =>
                day_loop rest busy_slots duration_minutes current_date available_slots
            end
      end
  end.

(** ** Data models of the booking *)

(** A value of the [event_details] dict, as far as validation tells
    values apart. *)
Inductive PyVal : Type :=
  | VNone
  | VStr (s : string)
  | VInt (z : Z)
  | VBool (b : bool)
  | VList (l : list PyVal).

Record CalendarEventDetails : Type := mkDetails {
  summary : string;
  description : option string;
  start_time : string;
  end_time : string;
  attendees : list string;
  timezone : string
}.

Record CalendarEventResponse : Type := mkEventResponse {
  status : string;
  event_link : option string;
  meet_link : option string;
  event_id : option string;
  error_message : option string
}.

(** The [event] dict of lines 195-217. *)
Record EventTime : Type := mkEventTime { dateTime : string; timeZone : string }.
Record ReminderOverride : Type := mkOverride { method : string; minutes : Z }.
Record EventBody : Type := mkEventBody {
  body_summary : string;
  body_description : option string;
  body_start : EventTime;
  body_end : EventTime;
  body_attendees : list string;          (* [{'email': email}, ...] *)
  requestId : string;
  conferenceSolutionKey : string;
  useDefault : bool;
  overrides : list ReminderOverride;
  guestsCanInviteOthers : bool;
  guestsCanModify : bool;
  guestsCanSeeOtherGuests : bool
}.

(** The keyword arguments of [events().insert(...)]. *)
Record InsertOptions : Type := mkInsertOptions {
  calendarId : string;
  conferenceDataVersion : Z;
  sendUpdates : string;
  sendNotifications : bool;
  supportsAttachments : bool
}.

(** The event resource the backend answers with; an attendee is a dict
    with the keys [email] and [responseStatus]. *)
Record CreatedEvent : Type := mkCreatedEvent {
  htmlLink : option string;
  hangoutLink : option string;
  created_id : option string;
  created_attendees : option (list (gmap string string))
}.

(** ** The world around the two tools *)

Inductive LogLevel : Type := INFO | WARNING | ERROR.

(** What a call does to the outside, in the order it happens. *)
Inductive Effect : Type :=
  | FreeBusyCall (q : FreeBusyQuery)
  | InsertCall (body : EventBody) (opts : InsertOptions)
  | Sleep (seconds : Z)
  | Log (level : LogLevel) (msg : string).

Record World : Type := mkWorld {
  (** the n-th reading of [datetime.utcnow()] during the call *)
  utcnow : nat → Z;
  (** [service.freebusy().query(body=q).execute()] *)
  freebusy_execute : FreeBusyQuery → Py FreeBusyResult;
  (** the text of [datetime.now().timestamp()] *)
  now_timestamp : string;
  (** [service.events().insert(...).execute()], by the number of
      insert calls made before this one *)
  events_insert : nat → EventBody → InsertOptions → Py CreatedEvent
}.

Record Outcome (A : Type) : Type := mkOutcome { returned : A; effects : list Effect }.
Arguments mkOutcome {A} returned effects.
Arguments returned {A} o.
Arguments effects {A} o.

Section Tools.

(** [str(e)] for an exception object. *)
Variable exn_str : PyExn → string.

(** *** [find_available_slots] *)

(** Line 125: [.get('calendars', {}).get('primary', {}).get('busy', [])]. *)
Definition busy_of (freebusy_result : FreeBusyResult) : list BusyInterval :=
  default [] (cals ← calendars freebusy_result; cal ← cals !! "primary"; busy cal).

(** Lines 181-187: the [except Exception] branch. *)
Definition slots_failed (so_far : list Effect) (e : PyExn) : Outcome SlotsReturn :=
  mkOutcome
    (PlainDict (mkAvailableSlotsResponse [] None ("Error finding slots: " +:+ exn_str e)))
    (so_far ++ [Log ERROR ("Failed to find available slots: " +:+ exn_str e)]).

(** Lines 165-179: the two ways out of the [try] block. *)
Definition slots_found (days_ahead : Z) (available_slots : list TimeSlot) : SlotsReturn :=
  match available_slots with
  | [] =>
      PlainDict (mkAvailableSlotsResponse [] None
        ("No available slots found between 10 AM and 5 PM in the next "
           +:+ pretty days_ahead +:+ " days"))
  | selected :: _ =>
      ModelObject (mkAvailableSlotsResponse available_slots (Some selected)
        ("Found " +:+ pretty (length available_slots)
           +:+ " available slots between 10 AM and 5 PM"))
  end.

(** Lines 112-122: the free/busy query. *)
Definition freebusy_query (w : World) (days_ahead : Z) : Py FreeBusyQuery :=
  let now := utcnow w 0 in
  td <- timedelta_days days_ahead ;;
  end_date <- datetime_add (utcnow w 1) td ;;
  Return (mkQuery now end_date ["primary"]).

Definition find_available_slots (w : World) (duration_minutes days_ahead : Z)
    : option (Outcome SlotsReturn) :=
  match freebusy_query w days_ahead with
  | Raise e => Some (slots_failed [] e)
  | Return query =>
      let called := [FreeBusyCall query] in
      match freebusy_execute w query with
      | Raise e => Some (slots_failed called e)
      | Return freebusy_result =>
          let busy_slots := busy_of freebusy_result in
          let current_date := date_of (utcnow w 2) in
          match day_loop (seqZ 0 days_ahead) busy_slots duration_minutes current_date [] with
          | None => None
          | Some (Raise e) => Some (slots_failed called e)
          | Some (Return available_slots) =>
              Some (mkOutcome (slots_found days_ahead available_slots) called)
          end
      end
  end.

(** *** [create_event] *)

(** Line 193: the dict [event_details] is unpacked into the fields of
    [CalendarEventDetails], a model with [extra='forbid']. The fields
    that fail are collected; any failure raises one [ValidationError]. *)
Definition field_names : list string :=
  ["summary"; "description"; "start_time"; "end_time"; "attendees"; "timezone"].

Definition is_str (v : PyVal) : bool := match v with VStr _ => true | _ => false end.
Definition str_of (v : PyVal) : string := match v with VStr s => s | _ => "" end.

(** [str], required. *)
Definition check_str (d : gmap string PyVal) (k : string) : list string :=
  match d !! k with Some (VStr _) => [] | _ => [k] end.
(** [Optional[str]] with default [None]. *)
Definition check_optional_str (d : gmap string PyVal) (k : string) : list string :=
  match d !! k with None | Some VNone | Some (VStr _) => [] | _ => [k] end.
(** [str] with a default. *)
Definition check_default_str (d : gmap string PyVal) (k : string) : list string :=
  match d !! k with None | Some (VStr _) => [] | _ => [k] end.
(** [List[str]], required. *)
Definition check_str_list (d : gmap string PyVal) (k : string) : list string :=
  match d !! k with
  | Some (VList l) => if forallb is_str l then [] else [k]
  | _ => [k]
  end.
(** Keys that are no field of the model. *)
Definition extra_keys (d : gmap string PyVal) : list string :=
  filter (λ k, k ∉ field_names) (elements (dom d)).

Definition validation_errors (d : gmap string PyVal) : list string :=
  check_str d "summary" ++ check_optional_str d "description"
    ++ check_str d "start_time" ++ check_str d "end_time"
    ++ check_str_list d "attendees" ++ check_default_str d "timezone"
    ++ extra_keys d.

Definition validate_details (event_details : gmap string PyVal) : Py CalendarEventDetails :=
  match validation_errors event_details with
  | [] =>
      Return (mkDetails
        (default "" (str_of <$> event_details !! "summary"))
        (match event_details !! "description" with Some (VStr s) => Some s | _ => None end)
        (default "" (str_of <$> event_details !! "start_time"))
        (default "" (str_of <$> event_details !! "end_time"))
        (match event_details !! "attendees" with Some (VList l) => str_of <$> l | _ => [] end)
        (default "UTC" (str_of <$> event_details !! "timezone")))
  | errors => Raise (ValidationError (String.concat "," errors))
  end.

(** Lines 195-217: the payload. *)
Definition event_body (w : World) (details : CalendarEventDetails) : EventBody :=
  mkEventBody
    (summary details)
    (description details)
    (mkEventTime (start_time details) (timezone details))
    (mkEventTime (end_time details) (timezone details))
    (attendees details)
    ("event_" +:+ now_timestamp w)
    "hangoutsMeet"
    false
    [mkOverride "email" (24 * 60); mkOverride "popup" 30]
    false false true.

(** Lines 228-233. *)
Definition insert_options : InsertOptions := mkInsertOptions "primary" 1 "all" true false.

Definition max_retries : Z := 3.

(** Lines 225-242: the retry loop. [calls] counts the insert calls made
    so far. The result is [(created_event, notifications_sent)], or the
    exception re-raised at line 241, with the effects of the loop. *)
Fixpoint insert_loop (fuel : nat) (w : World) (event : EventBody) (calls : nat)
    (retry_count : Z) : option (Py (option CreatedEvent * bool) * list Effect) :=
  match fuel with
  | O => None
  | S fuel =>
      if retry_count <? max_retries then
        let call := InsertCall event insert_options in
        match events_insert w calls event insert_options with
        | Return created_event => Some (Return (Some created_event, true), [call])
        | Raise e =>
            let retry_count := retry_count + 1 in
            let warning :=
              Log WARNING ("Attempt " +:+ pretty retry_count +:+ " failed: " +:+ exn_str e) in
            if retry_count =? max_retries then Some (Raise e, [call; warning])
            else
              match insert_loop fuel w event (S calls) retry_count with
              | None => None
              | Some (r, later) =>
                  Some (r, [call; warning; Sleep (2 ^ retry_count)] ++ later)
              end
        end
      else Some (Return (None, false), [])
  end.

(** [attendee.get(key)] inside an f-string. *)
Definition get_text (attendee : gmap string string) (key : string) : string :=
  default "None" (attendee !! key).

(** Lines 250-254. *)
Definition attendee_log (attendee : gmap string string) : Effect :=
  if bool_decide (attendee !! "responseStatus" = Some "needsAction")
  then Log WARNING ("Notification may not have reached " +:+ get_text attendee "email")
  else Log INFO ("Notification confirmed for " +:+ get_text attendee "email").

(** Lines 244-261: what follows the loop. *)
Definition after_insert (created_event : option CreatedEvent) (notifications_sent : bool)
    : Py CalendarEventResponse * list Effect :=
  let sent :=
    if notifications_sent
    then Log INFO "Email notifications successfully sent to attendees."
    else Log WARNING "Failed to send email notifications to attendees." in
  match created_event with
  | None => (Raise TypeError, [sent])   (* ['attendees' in None] *)
  | Some created_event =>
      (Return (mkEventResponse "success" (htmlLink created_event)
                 (hangoutLink created_event) (created_id created_event) None),
       sent :: match created_attendees created_event with
               | Some l => attendee_log <$> l
               | None => []
               end)
  end.

(** Lines 263-268: the [except Exception] branch. *)
Definition event_failed (so_far : list Effect) (e : PyExn) : Outcome CalendarEventResponse :=
  mkOutcome (mkEventResponse "error" None None None (Some (exn_str e)))
    (so_far ++ [Log ERROR ("Event creation failed: " +:+ exn_str e)]).

Definition create_event (w : World) (event_details : gmap string PyVal)
    : option (Outcome CalendarEventResponse) :=
  match validate_details event_details with
  | Raise e => Some (event_failed [] e)
  | Return details =>
      let event := event_body w details in
      match insert_loop (S (Z.to_nat max_retries)) w event 0 0 with
      | None => None
      | Some (Raise e, so_far) => Some (event_failed so_far e)
      | Some (Return (created_event, notifications_sent), so_far) =>
          match after_insert created_event notifications_sent with
          | (Raise e, logs) => Some (event_failed (so_far ++ logs) e)
          | (Return response, logs) => Some (mkOutcome response (so_far ++ logs))
          end
      end
  end.

End Tools.

(** ** Notions the properties are stated with *)

(** The half-open overlap rule: [[a, b)] and [[c, d)] overlap iff
    [not (b <= c or a >= d)]. *)
Definition overlap (a b c d : Z) : bool := negb ((b <=? c) || (a >=? d)).

(** A slot clears a busy entry when the test of line 153 comes out
    false: the slot ends by the start of the entry, or starts at or after
    its end. The bounds it is compared with are naive datetimes. *)
Definition clear_of (s : TimeSlot) (b : BusyInterval) : Prop :=
  ∃ c, busy_start_text b = IsoNaive c ∧
    (end_ s ≤ c ∨ ∃ d, busy_end_text b = IsoNaive d ∧ d ≤ start s).

(** The search window of a day: 10:00 to 17:00. *)
Definition window_open (day_date : Z) : Z := combine day_date (time_of_day 10 0).
Definition window_close (day_date : Z) : Z := combine day_date (time_of_day 17 0).

(** A slot made by the [while] loop of one day for the cursor position
    [k] (the cursor starts at [cursor] and moves by 15 minutes). *)
Definition generated (busy_slots : list BusyInterval) (duration_minutes : Z)
    (end_time cursor : Z) (s : TimeSlot) : Prop :=
  (∃ k, 0 ≤ k ∧ start s = cursor + k * (15 * US_PER_MINUTE)) ∧
  end_ s = start s + duration_minutes * US_PER_MINUTE ∧
  end_ s ≤ end_time ∧
  slot_is_free busy_slots (start s) (end_ s) = Return true.

(** A slot made on the day [current_date + day], which is no Saturday
    and no Sunday. *)
Definition slot_of_day (busy_slots : list BusyInterval) (duration_minutes : Z)
    (current_date day : Z) (s : TimeSlot) : Prop :=
  weekday (current_date + day) < 5 ∧
  generated busy_slots duration_minutes (window_close (current_date + day))
    (window_open (current_date + day)) s.

(** Strict chronological order. *)
Definition chronological (l : list TimeSlot) : Prop :=
  StronglySorted (λ a b, start a < start b) l.

(** The result went through the [except] branch of [find_available_slots]. *)
Definition slots_error (exn_str : PyExn → string) (out : Outcome SlotsReturn) : Prop :=
  ∃ so_far e, out = slots_failed exn_str so_far e.

Definition is_model_object (r : SlotsReturn) : bool :=
  match r with ModelObject _ => true | PlainDict _ => false end.

(** Counting the calls of the backend and the waits in a trace. *)
Definition is_insert (ef : Effect) : bool :=
  match ef with InsertCall _ _ => true | _ => false end.
Definition is_log (ef : Effect) : bool :=
  match ef with Log _ _ => true | _ => false end.
Definition is_backend_call (ef : Effect) : bool :=
  match ef with InsertCall _ _ | FreeBusyCall _ => true | _ => false end.
Definition insert_calls (tr : list Effect) : nat := length (List.filter is_insert tr).
Definition backend_calls (tr : list Effect) : nat := length (List.filter is_backend_call tr).
Definition waits (tr : list Effect) : list Z :=
  omap (λ ef, match ef with Sleep n => Some n | _ => None end) tr.

(** The effects between two consecutive insert calls, for every pair of
    consecutive calls of a trace: [gaps] lists, per gap, the waits made
    in it. *)
Fixpoint gaps_from (cur : list Z) (tr : list Effect) : list (list Z) :=
  match tr with
  | [] => []
  | InsertCall _ _ :: rest => cur :: gaps_from [] rest
  | Sleep n :: rest => gaps_from (cur ++ [n]) rest
  | _ :: rest => gaps_from cur rest
  end.
Definition gaps (tr : list Effect) : list (list Z) := tail (gaps_from [] tr).

(** Whatever is asked, the backend refuses the event. *)
Definition permanently_failing (w : World) : Prop :=
  ∀ n body opts, ∃ e, events_insert w n body opts = Raise e.

(** ** Concrete inputs *)

(** Monday 2 November 2026, and a time of that day. *)
Definition monday : Z := 739922.
Definition at_ (hh mm : Z) : Z := combine monday (time_of_day hh mm).

(** A [str()] for the exceptions. *)
Definition message_of (e : PyExn) : string :=
  match e with
  | OverflowError => "date value out of range"
  | TypeError => "can't compare offset-naive and offset-aware datetimes"
  | ValidationError fields => "validation error for CalendarEventDetails: " +:+ fields
  | Raised _ msg => msg
  end.

(** The answer of a backend with the given busy list for the primary
    calendar. *)
Definition answer (busy_slots : list BusyInterval) : FreeBusyResult :=
  mkFreeBusyResult (Some {[ "primary" := mkCalendar (Some busy_slots) ]}).

Definition refused : PyExn := Raised "HttpError" "backend unavailable".

Definition accepted_event : CreatedEvent :=
  mkCreatedEvent (Some "https://calendar.example/event/1") (Some "https://meet.example/abc")
    (Some "evt1")
    (Some [ {[ "email" := "ada@example.org"; "responseStatus" := "needsAction" ]} ]).

(** A world whose clock stands at [now], whose calendar has the given
    busy list, and whose backend refuses every event. *)
Definition world (now : Z) (busy_slots : list BusyInterval) : World :=
  mkWorld (λ _, now) (λ _, Return (answer busy_slots)) "1793613600.0"
    (λ _ _ _, Raise refused).

(** The same with a backend that accepts every event. *)
Definition accepting_world : World :=
  mkWorld (λ _, at_ 9 0) (λ _, Return (answer [])) "1793613600.0"
    (λ _ _ _, Return accepted_event).

(** A backend that cannot be reached for the free/busy query. *)
Definition offline_world : World :=
  mkWorld (λ _, at_ 9 0) (λ _, Raise refused) "1793613600.0" (λ _ _ _, Raise refused).

(** Event details whose start equals their end. *)
Definition kickoff : gmap string PyVal :=
  {[ "summary" := VStr "Project Kickoff Meeting";
     "start_time" := VStr "2026-11-02T10:00:00";
     "end_time" := VStr "2026-11-02T10:00:00";
     "attendees" := VList [VStr "ada@example.org"] ]}.

(** A meeting from 10:00 to 11:00 of that Monday, its bounds naive. *)
Definition morning_meeting : BusyInterval :=
  mkBusy (IsoNaive (at_ 10 0)) (IsoNaive (at_ 11 0)).

(** That Monday at 9:00 with an empty calendar, and at 15:00 with the
    meeting of the morning in the calendar. *)
Definition free_monday : World := world (at_ 9 0) [].
Definition busy_monday : World := world (at_ 15 0) [morning_meeting].

Definition slot_at_11 : TimeSlot := mkTimeSlot (at_ 11 0) (at_ 12 0).
Definition slot_at_16 : TimeSlot := mkTimeSlot (at_ 16 0) (at_ 17 0).

(** ** The search in closed form *)

(** A busy list whose bounds are all naive datetimes, from the pairs of
    bounds. *)
Definition naive_entries (intervals : list (Z * Z)) : list BusyInterval :=
  (λ ce, mkBusy (IsoNaive ce.1) (IsoNaive ce.2)) <$> intervals.

(** The slot overlaps none of the intervals. *)
Definition is_clear (intervals : list (Z * Z)) (s : TimeSlot) : bool :=
  forallb (λ ce, negb (overlap (start s) (end_ s) ce.1 ce.2)) intervals.

(** The slots of [count] consecutive cursor positions, a quarter of an
    hour apart, each [length_us] long. *)
Fixpoint grid (count : nat) (cursor length_us : Z) : list TimeSlot :=
  match count with
  | O => []
  | S count =>
      mkTimeSlot cursor (cursor + length_us)
        :: grid count (cursor + 15 * US_PER_MINUTE) length_us
  end.

(** The cursor positions of a day at which a slot of the duration still
    ends by 17:00. *)
Definition positions (duration_minutes : Z) : nat :=
  Z.to_nat ((420 - duration_minutes) `div` 15 + 1).

(** The candidates of the day [current_date + day]. *)
Definition day_slots (intervals : list (Z * Z)) (duration_minutes current_date day : Z)
    : list TimeSlot :=
  if weekday (current_date + day) >=? 5 then []
  else List.filter (is_clear intervals)
         (grid (positions duration_minutes) (window_open (current_date + day))
            (duration_minutes * US_PER_MINUTE)).

(** The candidates of the days [0 .. days_ahead - 1], in order. *)
Definition expected_slots (intervals : list (Z * Z)) (duration_minutes current_date days_ahead : Z)
    : list TimeSlot :=
  seqZ 0 days_ahead ≫= day_slots intervals duration_minutes current_date.

(** The searched days that are no Saturday and no Sunday. *)
Definition working_days (current_date days_ahead : Z) : list Z :=
  List.filter (λ day, weekday (current_date + day) <? 5) (seqZ 0 days_ahead).

(** The first busy entry cannot be looked at: a bound is missing or not
    a time text, or the start carries a UTC offset. *)
Definition first_entry_raises (b : BusyInterval) (e : PyExn) : Prop :=
  busy_start_text b = IsoInvalid e ∨
  ((∃ t, busy_start_text b = IsoNaive t ∨ busy_start_text b = IsoAware t) ∧
   busy_end_text b = IsoInvalid e) ∨
  ((∃ t, busy_start_text b = IsoAware t) ∧
   (∃ t, busy_end_text b = IsoNaive t ∨ busy_end_text b = IsoAware t) ∧
   e = TypeError).

(** The no-candidate answer of lines 166-170. *)
Definition no_slots_answer (days_ahead : Z) : SlotsReturn :=
  PlainDict (mkAvailableSlotsResponse [] None
    ("No available slots found between 10 AM and 5 PM in the next "
       +:+ pretty days_ahead +:+ " days")).

(** ** The runs of the booking *)

(** The warning of line 239 for the failed attempt [i]. *)
Definition attempt_warning (exn_str : PyExn → string) (i : Z) (e : PyExn) : Effect :=
  Log WARNING ("Attempt " +:+ pretty i +:+ " failed: " +:+ exn_str e).

(** The response of lines 256-261 and the log of lines 244-254 for the
    event the backend created. *)
Definition success_response (created : CreatedEvent) : CalendarEventResponse :=
  mkEventResponse "success" (htmlLink created) (hangoutLink created) (created_id created) None.

Definition success_logs (created : CreatedEvent) : list Effect :=
  Log INFO "Email notifications successfully sent to attendees."
    :: match created_attendees created with
       | Some l => attendee_log <$> l
       | None => []
       end.

(** The seconds a run waits in all. *)
Definition total_wait (tr : list Effect) : Z := foldr Z.add 0 (waits tr).

(** The fields that [CalendarEventDetails] requires, all of type [str]
    but the list of attendees. *)
Definition required_texts : list string := ["summary"; "start_time"; "end_time"].

Definition is_text_list (v : PyVal) : bool :=
  match v with VList l => forallb is_str l | _ => false end.

(** ** The check of the credentials *)

(** What [verify_credentials] reads of the credentials that
    [Credentials.from_authorized_user_file] loads: [creds.valid] and
    [creds.scopes], which is [None] when no scope is known. The
    attribute is what the loader sets; line 92 hands the loader
    [self.scopes]. *)
Record Credentials : Type := mkCredentials { valid : bool; scopes : option (list string) }.

(** Lines 60-65: [self.scopes]. *)
Definition service_scopes : list string :=
  [ "https://www.googleapis.com/auth/calendar";
    "https://www.googleapis.com/auth/calendar.events";
    "https://www.googleapis.com/auth/calendar.settings.readonly";
    "https://www.googleapis.com/auth/gmail.send" ].

(** The text of a list of texts inside an f-string, for texts without
    quotes and backslashes, as the scopes are. *)
Definition list_text (l : list string) : string :=
  "[" +:+ String.concat ", " ((λ s, "'" +:+ s +:+ "'") <$> l) +:+ "]".

Section Verification.

Variable exn_str : PyExn → string.

(** Lines 89-105; [loaded] is what loading [token.json] gives, or the
    exception it raises. *)
Definition verify_credentials (loaded : Py Credentials) : Outcome bool :=
  match loaded with
  | Raise e =>
      mkOutcome false [Log ERROR ("Credential verification failed: " +:+ exn_str e)]
  | Return creds =>
      if negb (valid creds) then
        mkOutcome false [Log WARNING "Credentials are not valid or have expired"]
      else
        match scopes creds with
        | None =>   (* [scope not in None] *)
            mkOutcome false
              [Log ERROR ("Credential verification failed: " +:+ exn_str TypeError)]
        | Some creds_scopes =>
            let missing_scopes := filter (λ scope, scope ∉ creds_scopes) service_scopes in
            match missing_scopes with
            | [] => mkOutcome true []
            | _ =>
                mkOutcome false
                  [Log WARNING ("Missing required scopes: " +:+ list_text missing_scopes)]
            end
        end
  end.

End Verification.

(** ** Authentication and the constructor *)

(** What the constructor does to the outside. *)
Inductive AuthEffect : Type :=
  | FlowRun                       (* lines 77-79: the OAuth flow *)
  | TokenWritten (text : string)  (* lines 81-82: [token.json] replaced *)
  | ServiceBuilt (text : string)  (* line 84: [build] *)
  | TokenLoaded                   (* line 92: [token.json] read *)
  | AuthLog (level : LogLevel) (msg : string).

(** The service object, known by the credentials it was built with
    (their [to_json()] text). *)
Record Service : Type := mkService { credentials_of : string }.

(** The collaborators of the constructor; [n] counts the calls of
    [_authenticate] made before. *)
Record AuthWorld : Type := mkAuthWorld {
  (** [os.path.exists(self.credentials_path)] *)
  path_exists : nat → bool;
  (** the flow of lines 77-79: the [to_json()] text of the credentials
      it obtains *)
  run_flow : nat → Py string;
  (** opening and writing [token.json], lines 81-82 *)
  write_token : nat → Py unit;
  (** what is left in [token.json] when that raises *)
  torn_token : nat → option string;
  (** [build('calendar', 'v3', credentials=creds)] *)
  build : nat → Py unit;
  (** [Credentials.from_authorized_user_file] on the present content of
      [token.json] ([None]: no such file) *)
  load_token : option string → Py Credentials
}.

Record AuthState : Type := mkAuthState {
  token_json : option string;
  authentications : nat;
  auth_trace : list AuthEffect
}.

Definition auth_did (st : AuthState) (done_ : list AuthEffect) : AuthState :=
  mkAuthState (token_json st) (authentications st) (auth_trace st ++ done_).

Definition auth_logs (logs : list Effect) : list AuthEffect :=
  omap (λ ef, match ef with Log level msg => Some (AuthLog level msg) | _ => None end) logs.

Definition flows (tr : list AuthEffect) : nat :=
  length (List.filter (λ ef, match ef with FlowRun => true | _ => false end) tr).
Definition token_loads (tr : list AuthEffect) : nat :=
  length (List.filter (λ ef, match ef with TokenLoaded => true | _ => false end) tr).

Section Authentication.

Variable exn_str : PyExn → string.

(** Lines 85-87: the [except] branch of [_authenticate]. *)
Definition authentication_failed (st : AuthState) (e : PyExn) : Py Service * AuthState :=
  (Raise e, auth_did st [AuthLog ERROR ("Authentication failed: " +:+ exn_str e)]).

(** Lines 71-87. *)
Definition _authenticate (aw : AuthWorld) (st : AuthState) : Py Service * AuthState :=
  let n := authentications st in
  let st := mkAuthState (token_json st) (S n) (auth_trace st) in
  if negb (path_exists aw n) then
    authentication_failed st (Raised "FileNotFoundError" "Credentials file not found")
  else
    match run_flow aw n with
    | Raise e => authentication_failed (auth_did st [FlowRun]) e
    | Return text =>
        match write_token aw n with
        | Raise e =>
            authentication_failed
              (mkAuthState (torn_token aw n) (S n) (auth_trace st ++ [FlowRun])) e
        | Return _ =>
            let st := mkAuthState (Some text) (S n)
                        (auth_trace st ++ [FlowRun; TokenWritten text]) in
            match build aw n with
            | Raise e => authentication_failed st e
            | Return _ => (Return (mkService text), auth_did st [ServiceBuilt text])
            end
        end
    end.

(** Lines 58-69: [__init__]. The result is [self.service], or the
    exception the constructor raises. *)
Definition CalendarService_init (aw : AuthWorld) (st : AuthState) : Py Service * AuthState :=
  match _authenticate aw st with
  | (Raise e, st) => (Raise e, st)
  | (Return service, st) =>
      let verified := verify_credentials exn_str (load_token aw (token_json st)) in
      let st := auth_did st (TokenLoaded :: auth_logs (effects verified)) in
      if returned verified then (Return service, st)
      else
        _authenticate aw
          (auth_did st [AuthLog ERROR "Credential verification failed - recreating service"])
  end.

End Authentication.

(** The process starts with the token file it finds and nothing done. *)
Definition at_start (token : option string) : AuthState := mkAuthState token 0 [].

(** ** More concrete inputs *)

(** The meeting of the morning as the pair of its bounds, and with
    bounds that carry a UTC offset. *)
Definition morning_bounds : Z * Z := (at_ 10 0, at_ 11 0).
Definition aware_meeting : BusyInterval :=
  mkBusy (IsoAware (at_ 10 0)) (IsoAware (at_ 11 0)).

(** A busy entry without the key [start]. *)
Definition entry_without_start : BusyInterval :=
  mkBusy (IsoInvalid (Raised "KeyError" "'start'")) (IsoNaive (at_ 11 0)).

(** Saturday 7 November 2026 at 9:00, with the meeting in the calendar. *)
Definition busy_saturday : World :=
  world (combine (monday + 5) (time_of_day 9 0)) [morning_meeting].

(** A backend that refuses the first insert call and accepts the
    second. *)
Definition flaky_world : World :=
  mkWorld (λ _, at_ 9 0) (λ _, Return (answer [])) "1793613600.0"
    (λ n _ _, if (n <? 1)%nat then Raise refused else Return accepted_event).

(** Two flows whose credentials are read back from [token.json] as
    expired, with the scopes the loader was given; no credentials file
    at all. *)
Definition two_flows : AuthWorld :=
  mkAuthWorld (λ _, true)
    (λ n, Return (if (n <? 1)%nat then "first" else "second"))
    (λ _, Return ()) (λ _, None) (λ _, Return ())
    (λ text, match text with
             | Some _ => Return (mkCredentials false (Some service_scopes))
             | None => Raise (Raised "FileNotFoundError" "token.json")
             end).

Definition no_credentials_file : AuthWorld :=
  mkAuthWorld (λ _, false) (λ _, Return "first") (λ _, Return ()) (λ _, None)
    (λ _, Return ()) (λ _, Raise refused).

(** ** Arithmetic of the datetime layer *)

Lemma timedelta_of_Return us td : timedelta_of us = Return td → td = us.
Proof. unfold timedelta_of. case_match; congruence. Qed.

Lemma timedelta_minutes_15 : timedelta_minutes 15 = Return (15 * US_PER_MINUTE).
Proof. reflexivity. Qed.

Lemma datetime_add_Return dt td r :
  datetime_add dt td = Return r →
  r = dt + td ∧ MINORDINAL * US_PER_DAY ≤ r < (MAXORDINAL + 1) * US_PER_DAY.
Proof.
  unfold datetime_add. case_match eqn:E; [|discriminate].
  intros [= <-]. apply andb_prop in E as [?%Z.leb_le ?%Z.ltb_lt]. lia.
Qed.

Lemma probe_Return duration_minutes slot_start probe :
  (td <- timedelta_minutes duration_minutes ;; datetime_add slot_start td) = Return probe →
  timedelta_minutes duration_minutes = Return (duration_minutes * US_PER_MINUTE) ∧
  datetime_add slot_start (duration_minutes * US_PER_MINUTE) = Return probe ∧
  probe = slot_start + duration_minutes * US_PER_MINUTE.
Proof.
  unfold py_bind. destruct (timedelta_minutes duration_minutes) as [td|] eqn:E; [|discriminate].
  apply timedelta_of_Return in E as Htd. subst td. intros H.
  split; [done|]. split; [done|]. by apply datetime_add_Return in H as [-> _].
Qed.

Lemma day_date_Return current_date day day_date :
  (td <- timedelta_days day ;; date_add current_date td) = Return day_date →
  day_date = current_date + day.
Proof.
  unfold py_bind. destruct (timedelta_days day) as [td|] eqn:E; [|discriminate].
  apply timedelta_of_Return in E. subst td. unfold date_add.
  rewrite Z.div_mul by done. case_match; [|discriminate]. by intros [= <-].
Qed.

(** ** The [while] loop of one day *)

Lemma slot_body_Return busy_slots d cur acc cur' acc' :
  slot_body busy_slots d cur acc = Return (cur', acc') →
  cur' = cur + 15 * US_PER_MINUTE ∧
  ∃ free, slot_is_free busy_slots cur (cur + d * US_PER_MINUTE) = Return free ∧
    acc' = if free then acc ++ [mkTimeSlot cur (cur + d * US_PER_MINUTE)] else acc.
Proof.
  unfold slot_body, py_bind.
  destruct (timedelta_minutes d) as [td|] eqn:Etd; [|discriminate].
  apply timedelta_of_Return in Etd. subst td.
  destruct (datetime_add cur _) as [slot_end|] eqn:Eend; [|discriminate].
  apply datetime_add_Return in Eend as [-> _].
  destruct (slot_is_free _ _ _) as [free|] eqn:Efree; [|discriminate].
  rewrite timedelta_minutes_15.
  destruct (datetime_add cur (15 * _)) as [next|] eqn:Enext; [|discriminate].
  apply datetime_add_Return in Enext as [-> _].
  intros [= <- <-]. eauto.
Qed.

(** With a counter above the number of cursor positions left, the loop
    comes to its end. *)
Lemma slot_loop_returns busy_slots d end_time fuel : ∀ cur acc,
  end_time - (cur + d * US_PER_MINUTE) < Z.of_nat fuel * (15 * US_PER_MINUTE) →
  is_Some (slot_loop (S fuel) busy_slots d end_time cur acc).
Proof.
  induction fuel as [|fuel IH]; intros cur acc Hfuel; cbn [slot_loop].
  - destruct (td <- _ ;; _) as [probe|] eqn:E; [|eauto].
    apply probe_Return in E as (_ & _ & ->).
    case_match eqn:Hle; [apply Z.leb_le in Hle; lia|eauto].
  - destruct (td <- _ ;; _) as [probe|] eqn:E; [|eauto].
    apply probe_Return in E as (_ & _ & ->).
    case_match eqn:Hle; [|eauto].
    destruct (slot_body _ _ _ _) as [[cur' acc']|] eqn:Eb; [|eauto].
    apply slot_body_Return in Eb as [-> _].
    apply IH. lia.
Qed.

Lemma slot_fuel_enough d day_date acc busy_slots :
  is_Some (slot_loop (slot_fuel d) busy_slots d (window_close day_date)
             (window_open day_date) acc).
Proof.
  apply slot_loop_returns.
  unfold window_close, window_open, combine, time_of_day, US_PER_MINUTE.
  destruct (Z.le_gt_cases 0 (420 - d)) as [Hd|Hd].
  - pose proof (Z.mod_pos_bound (420 - d) 15 eq_refl).
    pose proof (Z.div_mod (420 - d) 15 ltac:(done)).
    rewrite Z2Nat.id by (pose proof (Z.div_pos (420 - d) 15 Hd eq_refl); lia).
    lia.
  - assert (0 ≤ Z.of_nat (Z.to_nat ((420 - d) `div` 15 + 1))) by lia.
    nia.
Qed.

(** What the loop adds to the list it is given. *)
Lemma slot_loop_generated busy_slots d end_time fuel : ∀ cur acc l,
  slot_loop fuel busy_slots d end_time cur acc = Some (Return l) →
  ∃ new, l = acc ++ new ∧ Forall (generated busy_slots d end_time cur) new.
Proof.
  induction fuel as [|fuel IH]; intros cur acc l; cbn [slot_loop]; [done|].
  destruct (td <- _ ;; _) as [probe|] eqn:E; [|done].
  apply probe_Return in E as (_ & _ & ->).
  case_match eqn:Hle.
  - apply Z.leb_le in Hle.
    destruct (slot_body _ _ _ _) as [[cur' acc']|] eqn:Eb; [|done].
    apply slot_body_Return in Eb as (-> & free & Hfree & ->).
    intros (new & -> & Hnew)%IH.
    assert (Forall (generated busy_slots d end_time cur) new) as Hnew'.
    { eapply Forall_impl; [exact Hnew|].
      intros s ((k & Hk & Hs) & ? & ? & ?). repeat split; try done.
      exists (k + 1). lia. }
    destruct free.
    + exists (mkTimeSlot cur (cur + d * US_PER_MINUTE) :: new).
      split; [by rewrite <-app_assoc|]. constructor; [|done].
      repeat split; cbn; try done. exists 0. lia.
    + by exists new.
  - intros [= <-]. exists []. by rewrite app_nil_r.
Qed.

(** The order of the list survives the loop: every slot already there
    starts before the cursor, and every slot added starts at a cursor
    position of its own, at most [end_time] minus the duration. *)
Lemma slot_loop_chronological busy_slots d end_time bound fuel : ∀ cur acc l,
  end_time - d * US_PER_MINUTE < bound →
  chronological acc →
  Forall (λ s, start s < cur) acc →
  Forall (λ s, start s < bound) acc →
  slot_loop fuel busy_slots d end_time cur acc = Some (Return l) →
  chronological l ∧ Forall (λ s, start s < bound) l.
Proof.
  induction fuel as [|fuel IH]; intros cur acc l Hb Hsorted Hcur Hbound; cbn [slot_loop]; [done|].
  destruct (td <- _ ;; _) as [probe|] eqn:E; [|done].
  apply probe_Return in E as (_ & _ & ->).
  case_match eqn:Hle.
  - apply Z.leb_le in Hle.
    destruct (slot_body _ _ _ _) as [[cur' acc']|] eqn:Eb; [|done].
    apply slot_body_Return in Eb as (-> & free & Hfree & ->).
    assert (Forall (λ s, start s < cur + 15 * US_PER_MINUTE) acc) as Hcur'.
    { eapply Forall_impl; [exact Hcur|]. unfold US_PER_MINUTE. cbn. lia. }
    destruct free; apply IH; try done.
    + apply StronglySorted_app_2; [|done|repeat constructor].
      intros a b Ha ->%list_elem_of_singleton. cbn.
      by eapply (proj1 (Forall_forall _ _) Hcur).
    + apply Forall_app. split; [done|]. repeat constructor. cbn. unfold US_PER_MINUTE. lia.
    + apply Forall_app. split; [done|]. repeat constructor. cbn. lia.
  - by intros [= <-].
Qed.

(** ** The loop over the days *)

Lemma day_loop_returns busy_slots d current_date days : ∀ acc,
  is_Some (day_loop days busy_slots d current_date acc).
Proof.
  induction days as [|day rest IH]; intros acc; cbn [day_loop]; [eauto|].
  destruct (td <- _ ;; _) as [day_date|]; [|eauto].
  case_match; [apply IH|].
  destruct (slot_fuel_enough d day_date acc busy_slots) as [[l|e] Hl];
    unfold window_close, window_open in Hl; rewrite Hl; [apply IH|eauto].
Qed.

(** Every slot the loop adds was made on one of the days of the list,
    and that day is no Saturday and no Sunday. *)
Lemma day_loop_slots busy_slots d current_date days : ∀ acc l,
  day_loop days busy_slots d current_date acc = Some (Return l) →
  ∃ new, l = acc ++ new ∧
    Forall (λ s, ∃ day, day ∈ days ∧ slot_of_day busy_slots d current_date day s) new.
Proof.
  induction days as [|day rest IH]; intros acc l; cbn [day_loop].
  { intros [= <-]. exists []. by rewrite app_nil_r. }
  destruct (td <- _ ;; _) as [day_date|] eqn:E; [|done].
  apply day_date_Return in E. subst day_date.
  assert (∀ new, Forall (λ s, ∃ day', day' ∈ rest ∧
            slot_of_day busy_slots d current_date day' s) new →
          Forall (λ s, ∃ day', day' ∈ day :: rest ∧
            slot_of_day busy_slots d current_date day' s) new) as Hrest.
  { intros new Hnew. eapply Forall_impl; [exact Hnew|]. intros s (day' & ? & ?). exists day'.
    split; [by right|done]. }
  case_match eqn:Hwd.
  - intros (new & -> & Hnew)%IH. eauto.
  - destruct (slot_loop _ _ _ _ _ _) as [[l1|]|] eqn:Hloop; [|done..].
    apply slot_loop_generated in Hloop as (new1 & -> & Hnew1).
    intros (new & -> & Hnew)%IH. exists (new1 ++ new).
    split; [by rewrite app_assoc|]. apply Forall_app. split; [|eauto].
    eapply Forall_impl; [exact Hnew1|]. intros s Hs. exists day.
    split; [by left|]. split; [|done].
    destruct (Z.geb_spec (weekday (current_date + day)) 5); [done|lia].
Qed.

(** From 17:00 of a day, less the duration, to 10:00 of the next day:
    with a duration above -1020 minutes the last cursor position of a
    day comes before the first of the next. *)
Lemma window_close_before_next d day_date :
  -1020 < d →
  window_close day_date - d * US_PER_MINUTE < window_open (day_date + 1).
Proof. unfold window_close, window_open, combine, time_of_day, US_PER_MINUTE, US_PER_DAY. lia. Qed.

Lemma window_open_mono a b : a ≤ b → window_open a ≤ window_open b.
Proof. unfold window_open, combine, US_PER_DAY. lia. Qed.

Lemma day_loop_chronological busy_slots d current_date n : ∀ m acc l,
  -1020 < d →
  chronological acc →
  Forall (λ s, start s < window_open (current_date + m)) acc →
  day_loop (seqZ m (Z.of_nat n)) busy_slots d current_date acc = Some (Return l) →
  chronological l.
Proof.
  induction n as [|n IH]; intros m acc l Hd Hsorted Hbound.
  { cbn. by intros [= <-]. }
  rewrite seqZ_cons by lia. replace (Z.pred (Z.of_nat (S n))) with (Z.of_nat n) by lia.
  cbn [day_loop].
  destruct (td <- _ ;; _) as [day_date|] eqn:E; [|done].
  apply day_date_Return in E. subst day_date.
  assert (Forall (λ s, start s < window_open (current_date + Z.succ m)) acc) as Hbound'.
  { eapply Forall_impl; [exact Hbound|]. intros s Hs. cbn beta in *.
    pose proof (window_open_mono (current_date + m) (current_date + Z.succ m)). lia. }
  case_match eqn:Hwd; [by apply IH|].
  destruct (slot_loop _ _ _ _ _ _) as [[l1|]|] eqn:Hloop; [|done..].
  eapply (slot_loop_chronological _ _ _ (window_open (current_date + Z.succ m)))
    in Hloop as [? ?]; [by apply IH| |done|done|done].
  replace (current_date + Z.succ m) with (current_date + m + 1) by lia.
  by apply window_close_before_next.
Qed.

Lemma slots_found_available n l :
  available_slots (response_of (slots_found n l)) = l.
Proof. by destruct l. Qed.

Lemma slots_found_selected n l :
  selected_slot (response_of (slots_found n l)) = head l.
Proof. by destruct l. Qed.

(** ** The shape of every result of [find_available_slots] *)

Section Results.

Variable exn_str : PyExn → string.

(** The call returns: either through the [except] branch, or with the
    list the loop over the days has built for the busy list of the
    backend. *)
Lemma find_available_slots_cases w d n :
  ∃ out, find_available_slots exn_str w d n = Some out ∧
    (slots_error exn_str out ∨
     ∃ q result l,
       freebusy_query w n = Return q ∧
       freebusy_execute w q = Return result ∧
       day_loop (seqZ 0 n) (busy_of result) d (date_of (utcnow w 2)) [] = Some (Return l) ∧
       out = mkOutcome (slots_found n l) [FreeBusyCall q]).
Proof.
  unfold find_available_slots, slots_error.
  destruct (freebusy_query w n) as [q|e].
  2: { eexists. split; [done|]. left. by exists [], e. }
  destruct (freebusy_execute w q) as [result|e] eqn:Hexec.
  2: { eexists. split; [done|]. left. by exists [FreeBusyCall q], e. }
  destruct (day_loop_returns (busy_of result) d (date_of (utcnow w 2)) (seqZ 0 n) [])
    as [[l|e] Hl]; rewrite Hl.
  2: { eexists. split; [done|]. left. by exists [FreeBusyCall q], e. }
  eexists. split; [done|]. right. by exists q, result, l.
Qed.

End Results.

(** ** Slots, busy entries and order *)

Lemma slot_is_free_clear busy_slots s :
  slot_is_free busy_slots (start s) (end_ s) = Return true →
  ∀ b, b ∈ busy_slots → clear_of s b.
Proof.
  induction busy_slots as [|b0 rest IH]; intros Hfree b Hb; [by apply elem_of_nil in Hb|].
  cbn [slot_is_free] in Hfree. unfold py_bind in Hfree.
  destruct (busy_start_text b0) as [c|c|e] eqn:Hs; cbn in Hfree; [|by destruct (busy_end_text b0)..].
  destruct (busy_end_text b0) as [e0|e0|e0] eqn:He; cbn in Hfree; [| |done].
  - destruct (Z.leb_spec (end_ s) c) as [Hle|Hgt].
    + apply elem_of_cons in Hb as [->|Hb]; [|by apply IH].
      exists c. split; [done|]. by left.
    + destruct (Z.geb_spec (start s) e0) as [Hge|Hlt]; [|done].
      apply elem_of_cons in Hb as [->|Hb]; [|by apply IH].
      exists c. split; [done|]. right. exists e0. split; [done|lia].
  - destruct (Z.leb_spec (end_ s) c) as [Hle|Hgt]; [|done].
    apply elem_of_cons in Hb as [->|Hb]; [|by apply IH].
    exists c. split; [done|]. by left.
Qed.

Lemma clear_of_overlap s c e :
  clear_of s (mkBusy (IsoNaive c) (IsoNaive e)) → overlap (start s) (end_ s) c e = false.
Proof.
  intros (c' & [= <-] & [Hle|(e' & [= <-] & Hge)]); unfold overlap.
  - apply negb_false_iff, orb_true_iff. left. by apply Z.leb_le.
  - apply negb_false_iff, orb_true_iff. right. apply Z.geb_le. lia.
Qed.

Lemma chronological_NoDup l : chronological l → NoDup l.
Proof.
  induction 1 as [|s l _ IH Hall]; constructor; [|done].
  intros Hin. eapply (proj1 (Forall_forall _ _) Hall) in Hin. lia.
Qed.

Section Availability.

Variable exn_str : PyExn → string.

(** Where every returned candidate comes from. *)
Lemma candidates_generated w d n :
  ∃ out, find_available_slots exn_str w d n = Some out ∧
    ∀ s, s ∈ available_slots (response_of (returned out)) →
      ∃ q result day,
        freebusy_query w n = Return q ∧
        freebusy_execute w q = Return result ∧
        0 ≤ day < n ∧
        slot_of_day (busy_of result) d (date_of (utcnow w 2)) day s.
Proof.
  destruct (find_available_slots_cases exn_str w d n)
    as (out & Hout & [(tr & e & ->)|(q & result & l & Hq & Hr & Hl & ->)]);
    (eexists; split; [done|]); cbn.
  { intros s Hs. by apply elem_of_nil in Hs. }
  rewrite slots_found_available. intros s Hs.
  apply day_loop_slots in Hl as (new & -> & Hnew). cbn in Hs.
  eapply (proj1 (Forall_forall _ _) Hnew) in Hs as (day & Hday & Hslot).
  apply elem_of_seqZ in Hday. exists q, result, day.
  split; [done|]. split; [done|]. split; [lia|done].
Qed.

(** C1. Every candidate that [find_available_slots] returns is clear
    of every entry of the busy list the backend answered with: by the
    half-open rule the candidate [[t, t + duration)] and the entry
    [[c, e)] do not overlap, that is [t + duration <= c] or [t >= e];
    a candidate that overlaps an entry is not returned. This holds for
    every busy list and every request; the call always returns. *)
Theorem candidates_clear_of_busy w d n q result :
  freebusy_query w n = Return q →
  freebusy_execute w q = Return result →
  ∃ out, find_available_slots exn_str w d n = Some out ∧
    ∀ s b, s ∈ available_slots (response_of (returned out)) → b ∈ busy_of result →
      clear_of s b ∧
      ∀ c e, b = mkBusy (IsoNaive c) (IsoNaive e) → overlap (start s) (end_ s) c e = false.
Proof.
  intros Hq Hr. destruct (candidates_generated w d n) as (out & Hout & Hgen).
  exists out. split; [done|]. intros s b Hs Hb.
  destruct (Hgen s Hs) as (q' & result' & day & Hq' & Hr' & _ & _ & _ & _ & _ & Hfree).
  assert (q' = q) as -> by congruence. assert (result' = result) as -> by congruence.
  pose proof (slot_is_free_clear _ _ Hfree b Hb) as Hclear.
  split; [done|]. intros c e ->. by apply clear_of_overlap.
Qed.

(** C5. In every result of [find_available_slots], [selected_slot] is
    none exactly when [available_slots] is empty, and otherwise it is
    the first, earliest candidate, [available_slots[0]]. *)
Theorem selected_is_first_candidate w d n :
  ∃ out, find_available_slots exn_str w d n = Some out ∧
    let r := response_of (returned out) in
    (selected_slot r = None ↔ available_slots r = []) ∧
    selected_slot r = available_slots r !! 0%nat.
Proof.
  destruct (find_available_slots_cases exn_str w d n)
    as (out & Hout & [(tr & e & ->)|(q & result & l & _ & _ & _ & ->)]);
    (eexists; split; [done|]); cbn.
  - done.
  - rewrite slots_found_available, slots_found_selected. by destruct l.
Qed.

(** C6. Every candidate was made for a searched day, one of the
    [days_ahead] days from the current date on, which is no Saturday
    and no Sunday, and lies inside the window of that day: it starts
    at 10:00 or later and ends at 17:00 or earlier, so every instant of
    it is in [[10:00, 17:00)]. For a positive duration the candidate is
    a proper interval that starts on that very day before 17:00. *)
Theorem candidates_within_window w d n :
  ∃ out, find_available_slots exn_str w d n = Some out ∧
    ∀ s, s ∈ available_slots (response_of (returned out)) →
      ∃ day, 0 ≤ day < n ∧
        let day_date := date_of (utcnow w 2) + day in
        weekday day_date ≠ 5 ∧ weekday day_date ≠ 6 ∧
        window_open day_date ≤ start s ∧ end_ s ≤ window_close day_date ∧
        (∀ t, start s ≤ t < end_ s → window_open day_date ≤ t < window_close day_date) ∧
        (0 < d →
         start s < end_ s ∧ start s < window_close day_date ∧
         date_of (start s) = day_date).
Proof.
  destruct (candidates_generated w d n) as (out & Hout & Hgen).
  exists out. split; [done|]. intros s Hs.
  destruct (Hgen s Hs)
    as (_ & result & day & _ & _ & Hday & Hwd & (k & Hk & Hstart) & Hend & Hclose & _).
  exists day. split; [done|]. cbn zeta.
  set (day_date := date_of (utcnow w 2) + day) in *.
  assert (window_open day_date ≤ start s) as Hopen.
  { rewrite Hstart. unfold US_PER_MINUTE. lia. }
  assert (0 < d → start s < end_ s) as Hproper.
  { rewrite Hend. unfold US_PER_MINUTE. lia. }
  split_and!; [lia|lia|done|done|intros t; lia|].
  intros Hd. split_and!; [by apply Hproper|specialize (Hproper Hd); lia|].
  unfold date_of. symmetry.
  apply (Z.div_unique _ _ _ (start s - day_date * US_PER_DAY)); [|lia].
  left. specialize (Hproper Hd). revert Hopen Hclose Hproper.
  unfold window_open, window_close, combine, time_of_day, US_PER_DAY, US_PER_MINUTE. lia.
Qed.

(** C7. For every busy list and every request with a positive duration
    the candidates are in strict chronological order, each starting
    after the one before it, and no slot occurs twice. The proof needs
    no more of the duration than that it is above -1020 minutes. *)
Theorem candidates_chronological w d n :
  -1020 < d →
  ∃ out, find_available_slots exn_str w d n = Some out ∧
    chronological (available_slots (response_of (returned out))) ∧
    NoDup (available_slots (response_of (returned out))).
Proof.
  intros Hd.
  assert (∃ out, find_available_slots exn_str w d n = Some out ∧
            chronological (available_slots (response_of (returned out))))
    as (out & Hout & Hsorted); [|by eauto using chronological_NoDup].
  destruct (find_available_slots_cases exn_str w d n)
    as (out & Hout & [(tr & e & ->)|(q & result & l & _ & _ & Hl & ->)]);
    (eexists; split; [done|]); cbn.
  { constructor. }
  rewrite slots_found_available.
  destruct (Z.le_gt_cases n 0) as [Hn|Hn].
  - rewrite seqZ_nil in Hl by done. injection Hl as <-. constructor.
  - rewrite <-(Z2Nat.id n) in Hl by lia.
    eapply day_loop_chronological in Hl; [done|done|constructor|constructor].
Qed.

(** C8. Two calls that get the same busy list from the backend, for
    the same request (the same duration and number of days, searched
    from the same current date), return the same candidates, the same
    selected slot and the same notes: nothing else of the clock or of
    the backend enters the search. *)
Theorem same_inputs_same_candidates w w' d n q q' result result' :
  freebusy_query w n = Return q →
  freebusy_execute w q = Return result →
  freebusy_query w' n = Return q' →
  freebusy_execute w' q' = Return result' →
  busy_of result = busy_of result' →
  date_of (utcnow w 2) = date_of (utcnow w' 2) →
  ∃ out out',
    find_available_slots exn_str w d n = Some out ∧
    find_available_slots exn_str w' d n = Some out' ∧
    available_slots (response_of (returned out))
      = available_slots (response_of (returned out')) ∧
    returned out = returned out'.
Proof.
  intros Hq Hr Hq' Hr' Hbusy Hdate. unfold find_available_slots.
  rewrite Hq, Hr, Hq', Hr', <-Hbusy, <-Hdate.
  destruct (day_loop_returns (busy_of result) d (date_of (utcnow w 2)) (seqZ 0 n) [])
    as [[l|e] ->]; by eexists _, _.
Qed.

End Availability.

(** ** When the date arithmetic stays in range *)

Lemma datetime_add_in_range dt td :
  MINORDINAL * US_PER_DAY ≤ dt + td < (MAXORDINAL + 1) * US_PER_DAY →
  datetime_add dt td = Return (dt + td).
Proof.
  intros [H1 H2]. unfold datetime_add.
  apply Z.leb_le in H1. apply Z.ltb_lt in H2. by rewrite H1, H2.
Qed.

Lemma timedelta_minutes_small d :
  0 ≤ d ≤ 420 → timedelta_minutes d = Return (d * US_PER_MINUTE).
Proof.
  intros Hd. unfold timedelta_minutes, timedelta_of.
  rewrite Z.div_small by (unfold US_PER_MINUTE, US_PER_DAY; lia). done.
Qed.

Lemma day_date_in_range current_date day :
  0 ≤ day → 1 ≤ current_date → current_date + day ≤ MAXORDINAL →
  (td <- timedelta_days day ;; date_add current_date td) = Return (current_date + day).
Proof.
  intros Hday Hcd Hmax. unfold py_bind, timedelta_days, timedelta_of.
  rewrite Z.div_mul by done.
  assert ((- MAX_DELTA_DAYS <=? day) = true) as -> by (apply Z.leb_le; unfold MAX_DELTA_DAYS; lia).
  assert ((day <=? MAX_DELTA_DAYS) = true) as ->
    by (apply Z.leb_le; unfold MAX_DELTA_DAYS, MAXORDINAL in *; lia).
  cbn [andb]. unfold date_add. rewrite Z.div_mul by done.
  assert ((0 <? current_date + day) = true) as -> by (apply Z.ltb_lt; lia).
  assert ((current_date + day <=? MAXORDINAL) = true) as -> by (by apply Z.leb_le).
  done.
Qed.

Lemma probe_Raise d cur e :
  (td <- timedelta_minutes d ;; datetime_add cur td) = Raise e → e = OverflowError.
Proof.
  unfold py_bind, timedelta_minutes, timedelta_of, datetime_add.
  repeat case_match; congruence.
Qed.

Lemma day_date_Raise current_date day e :
  (td <- timedelta_days day ;; date_add current_date td) = Raise e → e = OverflowError.
Proof.
  unfold py_bind, timedelta_days, timedelta_of, date_add.
  repeat case_match; congruence.
Qed.

(** With nothing busy, a duration that fits the window and a day of the
    calendar, the loop of a day raises nothing. *)
Lemma slot_loop_free_day d day_date fuel : ∀ cur acc e,
  0 < d ≤ 420 →
  1 ≤ day_date ≤ MAXORDINAL →
  window_open day_date ≤ cur →
  cur + d * US_PER_MINUTE ≤ window_close day_date + 15 * US_PER_MINUTE →
  slot_loop fuel [] d (window_close day_date) cur acc ≠ Some (Raise e).
Proof.
  induction fuel as [|fuel IH]; intros cur acc e Hd Hday Hopen Hclose; cbn [slot_loop]; [done|].
  unfold py_bind at 1. rewrite timedelta_minutes_small by lia.
  revert Hopen Hclose.
  unfold window_open, window_close, combine, time_of_day. intros Hopen Hclose.
  rewrite datetime_add_in_range
    by (revert Hopen Hclose Hday; unfold MINORDINAL, MAXORDINAL, US_PER_DAY, US_PER_MINUTE; lia).
  case_match eqn:Hle; [|done]. apply Z.leb_le in Hle.
  unfold slot_body, py_bind. rewrite timedelta_minutes_small by lia.
  rewrite datetime_add_in_range
    by (revert Hopen Hclose Hday; unfold MINORDINAL, MAXORDINAL, US_PER_DAY, US_PER_MINUTE; lia).
  cbn [slot_is_free]. rewrite timedelta_minutes_15.
  rewrite datetime_add_in_range
    by (revert Hopen Hle Hday Hd; unfold MINORDINAL, MAXORDINAL, US_PER_DAY, US_PER_MINUTE; lia).
  apply IH; try done;
    unfold window_open, window_close, combine, time_of_day;
    revert Hopen Hle; unfold US_PER_MINUTE; lia.
Qed.

Lemma day_loop_free d current_date days : ∀ acc e,
  0 < d ≤ 420 →
  1 ≤ current_date →
  Forall (λ day, 0 ≤ day ∧ current_date + day ≤ MAXORDINAL) days →
  day_loop days [] d current_date acc ≠ Some (Raise e).
Proof.
  induction days as [|day rest IH]; intros acc e Hd Hcd Hdays; cbn [day_loop]; [done|].
  apply Forall_cons in Hdays as [[Hday Hmax] Hrest].
  rewrite day_date_in_range by done.
  case_match; [by apply IH|].
  destruct (slot_loop _ _ _ _ _ _) as [[l|e']|] eqn:Hloop; [by apply IH| |done].
  apply slot_loop_free_day in Hloop; [done|done|lia|done|].
  unfold window_open, window_close, combine, time_of_day, US_PER_MINUTE. lia.
Qed.

(** With nothing busy, the first slot tried on a day that is searched
    is the first slot of the result: 10:00 of that day. *)
Lemma day_loop_first_slot d current_date rest l :
  0 < d ≤ 420 →
  1 ≤ current_date ≤ MAXORDINAL →
  weekday current_date < 5 →
  day_loop (0 :: rest) [] d current_date [] = Some (Return l) →
  l !! 0%nat = Some (mkTimeSlot (window_open current_date)
                       (window_open current_date + d * US_PER_MINUTE)).
Proof.
  intros Hd Hcd Hwd. cbn [day_loop].
  rewrite day_date_in_range by lia. rewrite Z.add_0_r.
  destruct (Z.geb_spec (weekday current_date) 5) as [|_]; [lia|].
  unfold slot_fuel. cbn [slot_loop]. unfold py_bind at 1.
  rewrite timedelta_minutes_small by lia.
  fold (window_open current_date). fold (window_close current_date).
  assert (window_open current_date + d * US_PER_MINUTE ≤ window_close current_date) as Hfit.
  { unfold window_open, window_close, combine, time_of_day, US_PER_MINUTE. lia. }
  rewrite datetime_add_in_range.
  2: { revert Hfit. unfold window_open, window_close, combine, time_of_day.
       revert Hcd. unfold MINORDINAL, MAXORDINAL, US_PER_DAY, US_PER_MINUTE. lia. }
  apply Z.leb_le in Hfit as Hfit'. rewrite Hfit'.
  unfold slot_body, py_bind. rewrite timedelta_minutes_small by lia.
  rewrite datetime_add_in_range.
  2: { revert Hfit. unfold window_open, window_close, combine, time_of_day.
       revert Hcd. unfold MINORDINAL, MAXORDINAL, US_PER_DAY, US_PER_MINUTE. lia. }
  cbn [slot_is_free]. rewrite timedelta_minutes_15.
  rewrite datetime_add_in_range.
  2: { unfold window_open, combine, time_of_day.
       revert Hcd. unfold MINORDINAL, MAXORDINAL, US_PER_DAY, US_PER_MINUTE. lia. }
  destruct (slot_loop _ _ _ _ _ _) as [[l1|]|] eqn:Hloop; [|done..].
  apply slot_loop_generated in Hloop as (new1 & -> & _).
  intros (new & -> & _)%day_loop_slots. done.
Qed.

Lemma slots_failed_not_found exn_str tr e r q :
  slots_failed exn_str tr e ≠ mkOutcome r [FreeBusyCall q].
Proof.
  unfold slots_failed. intros [= _ Heff].
  apply (f_equal last) in Heff. by rewrite last_snoc in Heff.
Qed.

Section Requests.

Variable exn_str : PyExn → string.

(** C2, as the code has it. The request is not validated. A duration
    above the 420 minutes of the window is not signalled as an error
    of the request: the free/busy query is made first, and once it is
    answered the result is the ordinary empty answer (no candidate, no
    selected slot, the notes of "no slots found"), or the answer of the
    [except] branch if the date arithmetic overflows. *)
Theorem long_duration_is_not_rejected w d n q result :
  420 < d →
  freebusy_query w n = Return q →
  freebusy_execute w q = Return result →
  ∃ out, find_available_slots exn_str w d n = Some out ∧
    effects out !! 0%nat = Some (FreeBusyCall q) ∧
    available_slots (response_of (returned out)) = [] ∧
    selected_slot (response_of (returned out)) = None ∧
    (out = mkOutcome
             (PlainDict (mkAvailableSlotsResponse [] None
                ("No available slots found between 10 AM and 5 PM in the next "
                   +:+ pretty n +:+ " days")))
             [FreeBusyCall q]
     ∨ out = slots_failed exn_str [FreeBusyCall q] OverflowError).
Proof.
  intros Hd Hq Hr.
  assert (∀ days acc,
    day_loop days (busy_of result) d (date_of (utcnow w 2)) acc = Some (Return acc) ∨
    day_loop days (busy_of result) d (date_of (utcnow w 2)) acc = Some (Raise OverflowError))
    as Hloop.
  { induction days as [|day rest IH]; intros acc; cbn [day_loop]; [by left|].
    destruct (td <- _ ;; _) as [day_date|e] eqn:E.
    2: { apply day_date_Raise in E as ->. by right. }
    case_match; [apply IH|].
    unfold slot_fuel. cbn [slot_loop].
    destruct (td <- timedelta_minutes d ;; _) as [probe|e] eqn:Ep.
    2: { apply probe_Raise in Ep as ->. by right. }
    apply probe_Return in Ep as (_ & _ & ->).
    destruct (Z.leb_spec (combine day_date (time_of_day 10 0) + d * US_PER_MINUTE)
                (combine day_date (time_of_day 17 0))) as [Hle|_]; [|apply IH].
    revert Hle. unfold combine, time_of_day, US_PER_MINUTE. lia. }
  unfold find_available_slots. rewrite Hq, Hr.
  destruct (Hloop (seqZ 0 n) []) as [-> | ->]; eexists; (split; [done|]); cbn; eauto 10.
Qed.

(** C9. The shape of what [find_available_slots] hands back depends on
    the branch: the model object exactly when there is a candidate, a
    plain dict on the branch without candidates and on the [except]
    branch; each of the three branches is taken for some input. *)
Theorem return_shape_differs_by_branch :
  (∀ w d n, ∃ out, find_available_slots exn_str w d n = Some out ∧
     (is_model_object (returned out) = true
        ↔ available_slots (response_of (returned out)) ≠ []) ∧
     (slots_error exn_str out → is_model_object (returned out) = false)) ∧
  (∃ w d n out, find_available_slots exn_str w d n = Some out ∧
     is_model_object (returned out) = true) ∧
  (∃ w d n out, find_available_slots exn_str w d n = Some out ∧
     ¬ slots_error exn_str out ∧ is_model_object (returned out) = false) ∧
  (∃ w d n out, find_available_slots exn_str w d n = Some out ∧
     slots_error exn_str out ∧ is_model_object (returned out) = false).
Proof.
  split_and!.
  - intros w d n.
    destruct (find_available_slots_cases exn_str w d n)
      as (out & Hout & [(tr & e & ->)|(q & result & l & _ & _ & _ & ->)]);
      (eexists; split; [done|]); cbn.
    + done.
    + split; [by destruct l|]. intros (tr & e & Heq). symmetry in Heq.
      by apply slots_failed_not_found in Heq.
  - exists free_monday, 420, 1.
    eexists. split; [vm_compute; reflexivity|done].
  - exists free_monday, 421, 1.
    eexists. split; [vm_compute; reflexivity|]. split; [|done].
    intros (tr & e & Heq). symmetry in Heq. by apply slots_failed_not_found in Heq.
  - exists offline_world, 60, 1.
    eexists. split; [reflexivity|]. split; [|done]. by eexists _, _.
Qed.

(** C10. When the call is made after 10:00 of a working day and the
    backend reports nothing busy for the range it is asked about, which
    starts at the time of the call, the first candidate and the selected
    slot is the slot that starts at 10:00 of the current day: before
    the time of the call and before the range of the query. *)
Theorem first_day_slot_precedes_call w d n q result :
  let today := date_of (utcnow w 2) in
  0 < d ≤ 420 →
  1 ≤ n →
  1 ≤ today → today + n ≤ MAXORDINAL + 1 →
  weekday today < 5 →
  window_open today < utcnow w 0 →
  freebusy_query w n = Return q →
  freebusy_execute w q = Return result →
  busy_of result = [] →
  ∃ out r s,
    find_available_slots exn_str w d n = Some out ∧
    returned out = ModelObject r ∧
    selected_slot r = Some s ∧
    available_slots r !! 0%nat = Some s ∧
    start s = window_open today ∧
    timeMin q = utcnow w 0 ∧
    start s < timeMin q.
Proof.
  intros today Hd Hn Htoday Hmax Hwd Hnow Hq Hr Hbusy.
  assert (timeMin q = utcnow w 0) as Hmin.
  { revert Hq. unfold freebusy_query, py_bind. repeat case_match; try done. by intros [= <-]. }
  unfold find_available_slots. rewrite Hq, Hr, Hbusy. fold today.
  destruct (day_loop_returns [] d today (seqZ 0 n) []) as [[l|e] Hl].
  2: { apply day_loop_free in Hl; [done|done|done|].
       apply Forall_forall. intros day Hday%elem_of_seqZ. cbn beta. lia. }
  rewrite Hl. rewrite seqZ_cons in Hl by lia.
  apply day_loop_first_slot in Hl; [|done|lia|done].
  destruct l as [|s l]; [done|]. injection Hl as ->.
  eexists _, _, _. split; [done|]. do 4 (split; [reflexivity|]).
  split; [done|]. rewrite Hmin. exact Hnow.
Qed.

End Requests.

(** ** The retry loop of [create_event] *)

(** Log entries at the end of a trace change neither the count of the
    insert calls nor the waits nor the gaps. *)
Lemma gaps_from_logs cur extra :
  Forall (λ ef, is_log ef = true) extra → gaps_from cur extra = [].
Proof.
  induction 1 as [|ef extra Hef _ IH]; [done|]. by destruct ef.
Qed.

Lemma quiet_suffix tr extra :
  Forall (λ ef, is_log ef = true) extra →
  insert_calls (tr ++ extra) = insert_calls tr ∧
  waits (tr ++ extra) = waits tr ∧
  gaps (tr ++ extra) = gaps tr.
Proof.
  intros Hlogs. unfold insert_calls, waits, gaps. split_and!.
  - rewrite List.filter_app, length_app.
    assert (List.filter is_insert extra = []) as ->; [|cbn; lia].
    induction Hlogs as [|ef extra Hef _ IH]; [done|]. by destruct ef.
  - rewrite omap_app.
    assert (omap (λ ef, match ef with Sleep n => Some n | _ => None end) extra = []) as ->;
      [|by rewrite app_nil_r].
    induction Hlogs as [|ef extra Hef _ IH]; [done|]. by destruct ef.
  - f_equal. generalize (@nil Z).
    induction tr as [|ef tr IH]; intros cur; cbn; [by apply gaps_from_logs|].
    destruct ef; by rewrite ?IH.
Qed.

Lemma attendee_logs_are_logs (l : list (gmap string string)) :
  Forall (λ ef, is_log ef = true) (attendee_log <$> l).
Proof.
  induction l as [|a l IH]; constructor; [|done].
  unfold attendee_log. by case_bool_decide.
Qed.

Section Booking.

Variable exn_str : PyExn → string.


(** What follows the loop only writes to the log. *)
Lemma after_insert_logs created_event sent r logs :
  after_insert created_event sent = (r, logs) →
  Forall (λ ef, is_log ef = true) logs.
Proof.
  unfold after_insert. destruct created_event as [ce|]; intros [= <- <-].
  - constructor; [by destruct sent|].
    destruct (created_attendees ce); [apply attendee_logs_are_logs|constructor].
  - constructor; [by destruct sent|constructor].
Qed.

(** The end of [create_event], from the trace [tr] of the loop on. *)
Lemma create_event_end tr created sent :
  ∃ out,
    match after_insert created sent with
    | (Raise e, logs) => Some (event_failed exn_str (tr ++ logs) e)
    | (Return response, logs) => Some (mkOutcome response (tr ++ logs))
    end = Some out ∧
    insert_calls (effects out) = insert_calls tr ∧
    waits (effects out) = waits tr ∧
    gaps (effects out) = gaps tr ∧
    (∃ extra, effects out = tr ++ extra) ∧
    (is_Some created →
     status (returned out) = "success" ∧ error_message (returned out) = None).
Proof.
  destruct (after_insert created sent) as [r logs] eqn:Hai.
  pose proof (after_insert_logs _ _ _ _ Hai) as Hlogs.
  destruct r as [response|e]; (eexists; split; [done|]); cbn [effects returned event_failed].
  - destruct (quiet_suffix tr logs Hlogs) as (Q1 & Q2 & Q3).
    split_and!; [done..|by eexists|]. intros [ce ->]. unfold after_insert in Hai.
    by injection Hai as <- _.
  - rewrite <-app_assoc.
    destruct (quiet_suffix tr (logs ++ [Log ERROR ("Event creation failed: " +:+ exn_str e)]))
      as (Q1 & Q2 & Q3); [apply Forall_app; split; [done|by repeat constructor]|].
    split_and!; [done..|by eexists|]. intros [ce ->]. unfold after_insert in Hai. done.
Qed.


(** C4. Whatever the backend does, [create_event] returns after at
    most 3 insert calls, and between the attempts [k] and [k + 1] it
    waits [2 ^ k], the attempts counted from 1; there is no other wait,
    so none after the last attempt. When the first attempt succeeds
    there is exactly one insert call. When the backend fails every
    time, the result is the error result with the message of the
    exception; valid event details then take exactly 3 insert calls
    with the waits 2 and 4 between them, and the message is that of
    the third failure. *)
Theorem retry_is_bounded w event_details :
  ∃ out, create_event exn_str w event_details = Some out ∧
    let k := insert_calls (effects out) in
    (k ≤ 3)%nat ∧
    gaps (effects out) = (λ attempt, [2 ^ attempt]) <$> seqZ 1 (Z.of_nat k - 1) ∧
    waits (effects out) = concat (gaps (effects out)) ∧
    (∀ details created,
       validate_details event_details = Return details →
       events_insert w 0 (event_body w details) insert_options = Return created →
       k = 1%nat ∧ status (returned out) = "success") ∧
    (permanently_failing w →
       status (returned out) = "error" ∧
       (∃ e, error_message (returned out) = Some (exn_str e)) ∧
       ∀ details, validate_details event_details = Return details →
         k = 3%nat ∧ waits (effects out) = [2 ^ 1; 2 ^ 2] ∧
         ∃ e, events_insert w 2 (event_body w details) insert_options = Raise e ∧
              error_message (returned out) = Some (exn_str e)).
Proof.
  unfold create_event.
  destruct (validate_details event_details) as [details|e0] eqn:Hv.
  2: { eexists. split; [done|]. cbn. split_and!; [lia|done|done|done|].
       intros _. split_and!; [done|by eexists|done]. }
  change (S (Z.to_nat max_retries)) with 4%nat.
  set (event := event_body w details).
  cbn [insert_loop]. change (0 <? max_retries) with true. cbn match.
  destruct (events_insert w 0 event insert_options) as [ce1|e1] eqn:H1.
  { destruct (create_event_end [InsertCall event insert_options] (Some ce1) true)
      as (out & -> & Hk & Hw & Hg & _ & Hs).
    exists out. split; [done|]. cbn zeta. rewrite Hk, Hw, Hg.
    split_and!; [cbn; lia|done|done| |].
    - intros details' created [= <-] _. split; [done|]. by apply Hs.
    - intros Hfail. destruct (Hfail 0%nat event insert_options) as [e He]. congruence. }
  cbn zeta. change (0 + 1 =? max_retries) with false. cbn match.
  change (0 + 1 <? max_retries) with true. cbn match.
  destruct (events_insert w 1 event insert_options) as [ce2|e2] eqn:H2.
  { match goal with |- context [mkOutcome _ (?tr ++ _)] =>
      destruct (create_event_end tr (Some ce2) true) as (out & -> & Hk & Hw & Hg & _ & Hs) end.
    exists out. split; [done|]. cbn zeta. rewrite Hk, Hw, Hg.
    split_and!; [cbn; lia|done|done| |].
    - intros details' created [= <-] Hc. fold event in Hc. congruence.
    - intros Hfail. destruct (Hfail 1%nat event insert_options) as [e He]. congruence. }
  cbn zeta. change (0 + 1 + 1 =? max_retries) with false. cbn match.
  change (0 + 1 + 1 <? max_retries) with true. cbn match.
  destruct (events_insert w 2 event insert_options) as [ce3|e3] eqn:H3.
  { match goal with |- context [mkOutcome _ (?tr ++ _)] =>
      destruct (create_event_end tr (Some ce3) true) as (out & -> & Hk & Hw & Hg & _ & Hs) end.
    exists out. split; [done|]. cbn zeta. rewrite Hk, Hw, Hg.
    split_and!; [cbn; lia|done|done| |].
    - intros details' created [= <-] Hc. fold event in Hc. congruence.
    - intros Hfail. destruct (Hfail 2%nat event insert_options) as [e He]. congruence. }
  cbn zeta. change (0 + 1 + 1 + 1 =? max_retries) with true. cbn match. cbn [app].
  eexists. split; [done|]. cbn zeta. unfold event_failed. cbn [effects returned].
  split_and!; [cbn; lia|done|done| |].
  - intros details' created [= <-] Hc. fold event in Hc. congruence.
  - intros _. split_and!; [done|by eexists|]. intros details' [= <-].
    split_and!; [done..|]. by exists e3.
Qed.


End Booking.

(** ** The properties at concrete inputs *)

(** C1 at a Monday with a meeting from 10:00 to 11:00 and a request for
    60 minutes: the slot from 11:00 to 12:00 is returned and is clear of
    the meeting. *)
Lemma candidates_clear_of_busy_witness :
  ∃ q result out,
    freebusy_query busy_monday 1 = Return q ∧
    freebusy_execute busy_monday q = Return result ∧
    find_available_slots message_of busy_monday 60 1 = Some out ∧
    slot_at_11 ∈ available_slots (response_of (returned out)) ∧
    morning_meeting ∈ busy_of result ∧
    clear_of slot_at_11 morning_meeting ∧
    overlap (at_ 11 0) (at_ 12 0) (at_ 10 0) (at_ 11 0) = false.
Proof.
  set (w := busy_monday). set (s := slot_at_11).
  destruct (candidates_clear_of_busy message_of w 60 1
              (mkQuery (at_ 15 0) (at_ 15 0 + US_PER_DAY) ["primary"])
              (answer [morning_meeting]) eq_refl eq_refl) as (out & Hout & Hclear).
  assert (s ∈ available_slots (response_of (returned out))) as Hs.
  { vm_compute in Hout. injection Hout as <-. apply (list_elem_of_lookup_2 _ 0). reflexivity. }
  assert (morning_meeting ∈ busy_of (answer [morning_meeting])) as Hb.
  { vm_compute. left. }
  destruct (Hclear s morning_meeting Hs Hb) as [Hc Ho].
  eexists _, _, out. split_and!; [reflexivity|reflexivity|done|done|done|done|].
  exact (Ho _ _ eq_refl).
Defined.

(** C2: a request for 500 minutes gets the ordinary empty answer. *)
Lemma long_duration_is_not_rejected_witness :
  ∃ q out,
    420 < 500 ∧
    freebusy_query free_monday 7 = Return q ∧
    freebusy_execute free_monday q = Return (answer []) ∧
    find_available_slots message_of free_monday 500 7 = Some out ∧
    out = mkOutcome
            (PlainDict (mkAvailableSlotsResponse [] None
               "No available slots found between 10 AM and 5 PM in the next 7 days"))
            [FreeBusyCall q].
Proof.
  destruct (long_duration_is_not_rejected message_of free_monday 500 7
              (mkQuery (at_ 9 0) (at_ 9 0 + 7 * US_PER_DAY) ["primary"])
              (answer []) eq_refl eq_refl eq_refl) as (out & Hout & _).
  eexists _, out. split_and!; [done|reflexivity|reflexivity|done|].
  vm_compute in Hout. by injection Hout as <-.
Defined.

(** C2 as stated fails at a request for 0 minutes: the backend is
    queried, the call does not end in the [except] branch, and it returns
    29 candidates whose start equals their end. *)
Lemma zero_duration_is_searched :
  ∃ out s,
    find_available_slots message_of free_monday 0 1 = Some out ∧
    ¬ slots_error message_of out ∧
    backend_calls (effects out) = 1%nat ∧
    length (available_slots (response_of (returned out))) = 29%nat ∧
    selected_slot (response_of (returned out)) = Some s ∧
    start s = end_ s.
Proof.
  eexists _, _. split; [vm_compute; reflexivity|].
  split_and!; [|reflexivity..].
  intros (tr & e & Heq). symmetry in Heq. by apply slots_failed_not_found in Heq.
Qed.



(** C4 at a backend that refuses every event. *)
Lemma retry_is_bounded_witness :
  ∃ out,
    permanently_failing free_monday ∧
    create_event message_of free_monday kickoff = Some out ∧
    insert_calls (effects out) = 3%nat ∧
    waits (effects out) = [2; 4] ∧
    gaps (effects out) = [[2]; [4]] ∧
    status (returned out) = "error" ∧
    error_message (returned out) = Some "backend unavailable".
Proof.
  assert (permanently_failing free_monday) as Hfail by (intros ???; by eexists).
  destruct (retry_is_bounded message_of free_monday kickoff)
    as (out & Hout & _ & Hgaps & _ & _ & Hperm).
  destruct (Hperm Hfail) as (Hstatus & _ & Hvalid).
  destruct (Hvalid _ eq_refl) as (Hk & Hwaits & _).
  exists out. split_and!; [done|done|done|done| |done|].
  - rewrite Hgaps, Hk. reflexivity.
  - vm_compute in Hout. by injection Hout as <-.
Defined.

(** C5 at a free Monday. *)
Lemma selected_is_first_candidate_witness :
  ∃ out,
    find_available_slots message_of free_monday 60 1 = Some out ∧
    selected_slot (response_of (returned out)) = Some (mkTimeSlot (at_ 10 0) (at_ 11 0)) ∧
    available_slots (response_of (returned out)) !! 0%nat
      = Some (mkTimeSlot (at_ 10 0) (at_ 11 0)).
Proof.
  destruct (selected_is_first_candidate message_of free_monday 60 1)
    as (out & Hout & _ & Hsel).
  exists out. split; [done|]. cbn zeta in Hsel. rewrite Hsel.
  vm_compute in Hout. injection Hout as <-. done.
Defined.

(** C6 for the slot from 16:00 to 17:00 of that Monday. *)
Lemma candidates_within_window_witness :
  ∃ out day,
    find_available_slots message_of free_monday 60 7 = Some out ∧
    slot_at_16 ∈ available_slots (response_of (returned out)) ∧
    0 ≤ day < 7 ∧
    weekday (monday + day) ≠ 5 ∧ weekday (monday + day) ≠ 6 ∧
    window_open (monday + day) ≤ start slot_at_16 ∧
    end_ slot_at_16 ≤ window_close (monday + day) ∧
    date_of (start slot_at_16) = monday + day.
Proof.
  set (s := slot_at_16).
  destruct (candidates_within_window message_of free_monday 60 7)
    as (out & Hout & Hwin).
  assert (s ∈ available_slots (response_of (returned out))) as Hs.
  { vm_compute in Hout. injection Hout as <-. apply (list_elem_of_lookup_2 _ 24). reflexivity. }
  destruct (Hwin s Hs) as (day & Hday & H5 & H6 & Hopen & Hclose & _ & Hpos).
  destruct (Hpos eq_refl) as (_ & _ & Hdate).
  exists out, day.
  exact (conj Hout (conj Hs (conj Hday (conj H5 (conj H6 (conj Hopen (conj Hclose Hdate))))))).
Defined.

(** C7 for a request of 60 minutes over a week. *)
Lemma candidates_chronological_witness :
  ∃ out,
    -1020 < 60 ∧
    find_available_slots message_of (world (at_ 9 0) [morning_meeting]) 60 7 = Some out ∧
    length (available_slots (response_of (returned out))) = 121%nat ∧
    chronological (available_slots (response_of (returned out))) ∧
    NoDup (available_slots (response_of (returned out))).
Proof.
  destruct (candidates_chronological message_of (world (at_ 9 0) [morning_meeting]) 60 7 eq_refl)
    as (out & Hout & Hsorted & Hnodup).
  exists out. split_and!; [done|done| |done|done].
  vm_compute in Hout. by injection Hout as <-.
Defined.

(** The bound of -1020 minutes is sharp, far outside the requests with
    a positive duration: at -1020 minutes over two days the last cursor
    position of Monday and the first of Tuesday are the same instant,
    10:00 of Tuesday, and the slot made there is returned twice, at the
    positions 96 and 97. *)
Lemma long_negative_duration_repeats_a_slot :
  ∃ out s,
    find_available_slots message_of free_monday (-1020) 2 = Some out ∧
    available_slots (response_of (returned out)) !! 96%nat = Some s ∧
    available_slots (response_of (returned out)) !! 97%nat = Some s ∧
    ¬ NoDup (available_slots (response_of (returned out))) ∧
    ¬ chronological (available_slots (response_of (returned out))).
Proof.
  eexists _, _. split; [vm_compute; reflexivity|].
  set (l := available_slots _).
  assert (l !! 96%nat = Some (mkTimeSlot (combine (monday + 1) (time_of_day 10 0))
                                (at_ 17 0))) as H96 by reflexivity.
  assert (l !! 97%nat = Some (mkTimeSlot (combine (monday + 1) (time_of_day 10 0))
                                (at_ 17 0))) as H97 by reflexivity.
  assert (¬ NoDup l) as Hdup.
  { intros Hnodup. by pose proof (NoDup_lookup _ _ _ _ Hnodup H96 H97). }
  split_and!; [exact H96|exact H97|done|].
  intros Hsorted. by apply Hdup, chronological_NoDup.
Qed.

(** C8: a call at 9:00 and a call at 15:00 of the same Monday. *)
Lemma same_inputs_same_candidates_witness :
  ∃ out out',
    date_of (utcnow (world (at_ 9 0) [morning_meeting]) 2) = date_of (utcnow busy_monday 2) ∧
    find_available_slots message_of (world (at_ 9 0) [morning_meeting]) 60 7 = Some out ∧
    find_available_slots message_of busy_monday 60 7 = Some out' ∧
    effects out ≠ effects out' ∧
    available_slots (response_of (returned out))
      = available_slots (response_of (returned out')).
Proof.
  set (w := world (at_ 9 0) [morning_meeting]). set (w' := busy_monday).
  destruct (same_inputs_same_candidates message_of w w' 60 7
              (mkQuery (at_ 9 0) (at_ 9 0 + 7 * US_PER_DAY) ["primary"])
              (mkQuery (at_ 15 0) (at_ 15 0 + 7 * US_PER_DAY) ["primary"])
              (answer [morning_meeting]) (answer [morning_meeting])
              eq_refl eq_refl eq_refl eq_refl eq_refl eq_refl)
    as (out & out' & Hout & Hout' & Hsame & _).
  exists out, out'. split_and!; [reflexivity|done|done| |done].
  vm_compute in Hout, Hout'. injection Hout as <-. injection Hout' as <-. done.
Defined.

(** C9 at a free Monday: a request for 60 minutes gets the model
    object. *)
Lemma return_shape_differs_by_branch_witness :
  ∃ out,
    find_available_slots message_of free_monday 60 1 = Some out ∧
    available_slots (response_of (returned out)) ≠ [] ∧
    is_model_object (returned out) = true.
Proof.
  destruct (return_shape_differs_by_branch message_of) as (Hall & _).
  destruct (Hall free_monday 60 1) as (out & Hout & Hshape & _).
  assert (available_slots (response_of (returned out)) ≠ []) as Hne.
  { vm_compute in Hout. by injection Hout as <-. }
  exists out. split_and!; [done|done|]. by apply Hshape.
Defined.

(** C10: a call at 15:00 of a free Monday selects the slot of 10:00 of
    that Monday. *)
Lemma first_day_slot_precedes_call_witness :
  ∃ q out r s,
    freebusy_query (world (at_ 15 0) []) 7 = Return q ∧
    find_available_slots message_of (world (at_ 15 0) []) 60 7 = Some out ∧
    returned out = ModelObject r ∧
    selected_slot r = Some s ∧
    start s = at_ 10 0 ∧
    timeMin q = at_ 15 0 ∧
    start s < timeMin q.
Proof.
  destruct (first_day_slot_precedes_call message_of (world (at_ 15 0) []) 60 7
              (mkQuery (at_ 15 0) (at_ 15 0 + 7 * US_PER_DAY) ["primary"]) (answer []))
    as (out & r & s & Hout & Hr & Hsel & _ & Hstart & Hmin & Hlt);
    [done|done|done|done|done|done|reflexivity|reflexivity|reflexivity|].
  eexists _, out, r, s. split_and!; [reflexivity|done|done|done|done|done|done].
Defined.

(** A busy entry whose bounds carry a UTC offset cannot be ordered
    against the naive cursor of the search: the first comparison raises
    and the call ends in the [except] branch, without candidates. *)
Example aware_busy_entry_ends_the_search :
  ∃ out,
    find_available_slots message_of
      (world (at_ 9 0) [mkBusy (IsoAware (at_ 10 0)) (IsoAware (at_ 11 0))]) 60 1 = Some out ∧
    out = slots_failed message_of
            [FreeBusyCall (mkQuery (at_ 9 0) (at_ 9 0 + US_PER_DAY) ["primary"])] TypeError ∧
    available_slots (response_of (returned out)) = [].
Proof. eexists. split_and!; [vm_compute; reflexivity|reflexivity..]. Qed.

(** * Further properties of the search *)

Lemma slot_is_free_naive intervals slot_start slot_end :
  slot_is_free (naive_entries intervals) slot_start slot_end
    = Return (is_clear intervals (mkTimeSlot slot_start slot_end)).
Proof.
  induction intervals as [|[c e] rest IH]; [done|].
  cbn [naive_entries fmap list_fmap slot_is_free busy_start_text busy_end_text
       fromisoformat py_bind naive_le naive_ge fst snd].
  fold (naive_entries rest). rewrite IH.
  unfold is_clear. cbn [forallb start end_ fst snd]. unfold overlap.
  destruct (slot_end <=? c); [done|]. by destruct (slot_start >=? e).
Qed.

Lemma positions_fit d day_date :
  0 < d ≤ 420 →
  window_close day_date
    < window_open day_date + Z.of_nat (positions d) * (15 * US_PER_MINUTE) + d * US_PER_MINUTE
    ≤ window_close day_date + 15 * US_PER_MINUTE.
Proof.
  intros Hd. unfold positions, window_close, window_open, combine, time_of_day, US_PER_MINUTE.
  pose proof (Z.mod_pos_bound (420 - d) 15 eq_refl).
  pose proof (Z.div_mod (420 - d) 15 ltac:(done)).
  rewrite Z2Nat.id by (pose proof (Z.div_pos (420 - d) 15); lia).
  lia.
Qed.

(** The loop of one day over naive busy bounds, when the dates are in
    range: the free slots among the cursor positions that are left. *)
Lemma slot_loop_closed intervals d day_date count : ∀ fuel cur acc,
  0 < d ≤ 420 →
  1 ≤ day_date ≤ MAXORDINAL →
  (count < fuel)%nat →
  window_open day_date ≤ cur →
  window_close day_date
    < cur + Z.of_nat count * (15 * US_PER_MINUTE) + d * US_PER_MINUTE
    ≤ window_close day_date + 15 * US_PER_MINUTE →
  slot_loop fuel (naive_entries intervals) d (window_close day_date) cur acc
    = Some (Return (acc ++ List.filter (is_clear intervals)
                              (grid count cur (d * US_PER_MINUTE)))).
Proof.
  induction count as [|count IH]; intros fuel cur acc Hd Hday Hfuel Hopen Hcount;
    (destruct fuel as [|fuel]; [lia|]); cbn [slot_loop]; unfold py_bind at 1;
    rewrite timedelta_minutes_small by lia;
    revert Hopen Hcount; unfold window_open, window_close, combine, time_of_day;
    intros Hopen Hcount;
    (rewrite datetime_add_in_range
      by (revert Hopen Hcount Hday; unfold MINORDINAL, MAXORDINAL, US_PER_DAY, US_PER_MINUTE; lia)).
  - destruct (Z.leb_spec (cur + d * US_PER_MINUTE)
                (day_date * US_PER_DAY + (17 * 60 + 0) * US_PER_MINUTE)) as [Hle|_].
    + revert Hle Hcount. unfold US_PER_MINUTE. lia.
    + cbn. by rewrite app_nil_r.
  - destruct (Z.leb_spec (cur + d * US_PER_MINUTE)
                (day_date * US_PER_DAY + (17 * 60 + 0) * US_PER_MINUTE)) as [Hle|Hgt].
    2: { revert Hgt Hcount. unfold US_PER_MINUTE. lia. }
    unfold slot_body, py_bind. rewrite timedelta_minutes_small by lia.
    rewrite datetime_add_in_range
      by (revert Hopen Hcount Hday; unfold MINORDINAL, MAXORDINAL, US_PER_DAY, US_PER_MINUTE; lia).
    rewrite slot_is_free_naive, timedelta_minutes_15.
    rewrite datetime_add_in_range
      by (revert Hopen Hle Hday Hd; unfold MINORDINAL, MAXORDINAL, US_PER_DAY, US_PER_MINUTE; lia).
    fold (window_close day_date).
    rewrite IH; [|done|done|lia| |].
    + cbn [grid List.filter].
      destruct (is_clear intervals _); [by rewrite <-app_assoc|done].
    + unfold window_open, combine, time_of_day. revert Hopen. unfold US_PER_MINUTE. lia.
    + unfold window_close, combine, time_of_day. revert Hcount. unfold US_PER_MINUTE. lia.
Qed.

(** The loop over the days in closed form. *)
Lemma day_loop_closed intervals d current_date days : ∀ acc,
  0 < d ≤ 420 →
  1 ≤ current_date →
  Forall (λ day, 0 ≤ day ∧ current_date + day ≤ MAXORDINAL) days →
  day_loop days (naive_entries intervals) d current_date acc
    = Some (Return (acc ++ (days ≫= day_slots intervals d current_date))).
Proof.
  induction days as [|day rest IH]; intros acc Hd Hcd Hdays; cbn [day_loop].
  { cbn. by rewrite app_nil_r. }
  apply Forall_cons in Hdays as [[Hday Hmax] Hrest].
  rewrite day_date_in_range by done.
  rewrite bind_cons. unfold day_slots at 1.
  destruct (weekday (current_date + day) >=? 5).
  - cbn [app]. by apply IH.
  - fold (window_open (current_date + day)). fold (window_close (current_date + day)).
    unfold slot_fuel. fold (positions d).
    rewrite (slot_loop_closed intervals d (current_date + day) (positions d));
      [|done|lia|lia|done|by apply positions_fit].
    rewrite IH by done. by rewrite <-app_assoc.
Qed.

Lemma elem_of_grid count : ∀ cursor length_us s,
  s ∈ grid count cursor length_us ↔
  ∃ k, 0 ≤ k < Z.of_nat count ∧
    s = mkTimeSlot (cursor + k * (15 * US_PER_MINUTE))
          (cursor + k * (15 * US_PER_MINUTE) + length_us).
Proof.
  induction count as [|count IH]; intros cursor length_us s; cbn [grid].
  { split; [by intros ?%elem_of_nil|]. intros (k & ? & _). lia. }
  rewrite elem_of_cons, IH. split.
  - intros [->|(k & Hk & ->)].
    + exists 0. split; [lia|]. by rewrite Z.mul_0_l, Z.add_0_r.
    + exists (k + 1). split; [lia|]. f_equal; lia.
  - intros (k & Hk & ->). destruct (decide (k = 0)) as [->|Hne].
    + left. by rewrite Z.mul_0_l, Z.add_0_r.
    + right. exists (k - 1). split; [lia|]. f_equal; lia.
Qed.

Lemma length_grid count cursor length_us : length (grid count cursor length_us) = count.
Proof. induction count in cursor |- *; cbn; by rewrite ?IHcount. Qed.

Lemma is_clear_spec intervals s :
  is_clear intervals s = true ↔
  ∀ c e, (c, e) ∈ intervals → end_ s ≤ c ∨ e ≤ start s.
Proof.
  unfold is_clear. rewrite forallb_forall. split.
  - intros H c e Hin%list_elem_of_In. specialize (H _ Hin). cbn in H.
    apply negb_true_iff, negb_false_iff, orb_true_iff in H as [?%Z.leb_le|?%Z.geb_le]; lia.
  - intros H [c e] Hin%list_elem_of_In. cbn.
    apply negb_true_iff, negb_false_iff, orb_true_iff.
    destruct (H c e Hin); [left; by apply Z.leb_le|right; apply Z.geb_le; lia].
Qed.

Lemma positions_spec d k day_date :
  0 < d ≤ 420 → 0 ≤ k →
  k < Z.of_nat (positions d) ↔
  window_open day_date + k * (15 * US_PER_MINUTE) + d * US_PER_MINUTE ≤ window_close day_date.
Proof.
  intros Hd Hk. pose proof (positions_fit d day_date Hd) as Hfit.
  revert Hfit. unfold window_open, window_close, combine, time_of_day, US_PER_MINUTE. lia.
Qed.

Lemma filter_sublist_impl {A} (p q : A → bool) (l : list A) :
  (∀ x, p x = true → q x = true) → sublist (List.filter p l) (List.filter q l).
Proof.
  intros Hpq. induction l as [|x l IH]; cbn; [done|].
  destruct (p x) eqn:Hp.
  - rewrite (Hpq x Hp). by constructor.
  - destruct (q x); [by constructor|done].
Qed.

Lemma day_loop_no_working_day busy_slots d current_date days : ∀ acc,
  1 ≤ current_date →
  Forall (λ day, 0 ≤ day ∧ current_date + day ≤ MAXORDINAL ∧
                 5 ≤ weekday (current_date + day)) days →
  day_loop days busy_slots d current_date acc = Some (Return acc).
Proof.
  induction days as [|day rest IH]; intros acc Hcd Hdays; cbn [day_loop]; [done|].
  apply Forall_cons in Hdays as [(Hday & Hmax & Hwd) Hrest].
  rewrite day_date_in_range by done.
  destruct (Z.geb_spec (weekday (current_date + day)) 5); [by apply IH|lia].
Qed.

Lemma slot_is_free_first_raises b rest e slot_start slot_end :
  first_entry_raises b e → slot_is_free (b :: rest) slot_start slot_end = Raise e.
Proof.
  cbn [slot_is_free]. unfold py_bind.
  intros [->|[[[t [-> | ->]] ->]|[[t ->] [[t' [-> | ->]] ->]]]]; done.
Qed.

(** When the first busy entry cannot be looked at, the first slot of the
    first working day ends the search. *)
Lemma day_loop_raises b rest d current_date e days : ∀ acc,
  0 < d ≤ 420 →
  1 ≤ current_date →
  first_entry_raises b e →
  Forall (λ day, 0 ≤ day ∧ current_date + day ≤ MAXORDINAL) days →
  Exists (λ day, weekday (current_date + day) < 5) days →
  day_loop days (b :: rest) d current_date acc = Some (Raise e).
Proof.
  intros acc Hd Hcd Hraises Hdays Hwork. revert acc.
  induction days as [|day days IH]; intros acc; [by apply Exists_nil in Hwork|].
  apply Forall_cons in Hdays as [[Hday Hmax] Hrest]. cbn [day_loop].
  rewrite day_date_in_range by done.
  destruct (Z.geb_spec (weekday (current_date + day)) 5) as [Hwd|Hwd].
  { apply IH; [done|]. apply Exists_cons in Hwork as [?|?]; [lia|done]. }
  unfold slot_fuel. cbn [slot_loop]. unfold py_bind at 1.
  rewrite timedelta_minutes_small by lia.
  rewrite datetime_add_in_range
    by (unfold combine, time_of_day; revert Hcd Hday Hmax;
        unfold MINORDINAL, MAXORDINAL, US_PER_DAY, US_PER_MINUTE; lia).
  destruct (Z.leb_spec (combine (current_date + day) (time_of_day 10 0) + d * US_PER_MINUTE)
              (combine (current_date + day) (time_of_day 17 0))) as [_|Hgt].
  2: { revert Hgt. unfold combine, time_of_day, US_PER_MINUTE. lia. }
  unfold slot_body, py_bind. rewrite timedelta_minutes_small by lia.
  rewrite datetime_add_in_range
    by (unfold combine, time_of_day; revert Hcd Hday Hmax;
        unfold MINORDINAL, MAXORDINAL, US_PER_DAY, US_PER_MINUTE; lia).
  by rewrite (slot_is_free_first_raises b rest e).
Qed.

Lemma chronological_head_least l s0 s :
  chronological l → head l = Some s0 → s ∈ l → start s0 ≤ start s.
Proof.
  intros Hsorted Hhead Hs. destruct l as [|s1 l]; [done|]. injection Hhead as ->.
  apply StronglySorted_cons in Hsorted as [Hall _].
  apply elem_of_cons in Hs as [->|Hs]; [lia|].
  eapply (proj1 (Forall_forall _ _) Hall) in Hs. lia.
Qed.

Lemma seqZ_in_range current_date n :
  current_date + n ≤ MAXORDINAL + 1 →
  Forall (λ day, 0 ≤ day ∧ current_date + day ≤ MAXORDINAL) (seqZ 0 n).
Proof. intros Hmax. apply Forall_forall. intros day Hday%elem_of_seqZ. cbn beta. lia. Qed.

Lemma elem_of_day_slots intervals d current_date day s :
  0 < d ≤ 420 →
  s ∈ day_slots intervals d current_date day ↔
  weekday (current_date + day) < 5 ∧
  ∃ k, 0 ≤ k ∧
    s = mkTimeSlot (window_open (current_date + day) + k * (15 * US_PER_MINUTE))
          (window_open (current_date + day) + k * (15 * US_PER_MINUTE) + d * US_PER_MINUTE) ∧
    end_ s ≤ window_close (current_date + day) ∧
    ∀ c e, (c, e) ∈ intervals → end_ s ≤ c ∨ e ≤ start s.
Proof.
  intros Hd. unfold day_slots.
  destruct (Z.geb_spec (weekday (current_date + day)) 5) as [Hwd|Hwd].
  { split; [by intros ?%elem_of_nil|]. intros [? _]. lia. }
  rewrite list_elem_of_In, filter_In, <-list_elem_of_In, elem_of_grid, is_clear_spec.
  split.
  - intros [(k & [Hk0 Hk] & ->) Hclear]. split; [done|]. exists k.
    split_and!; [done|done| |done]. cbn. by apply positions_spec.
  - intros (_ & k & Hk0 & -> & Hend & Hclear). split; [|done]. exists k.
    split; [|done]. split; [done|]. by eapply positions_spec.
Qed.

Lemma length_day_slots_free d current_date (days : list Z) :
  length (days ≫= day_slots [] d current_date)
    = Nat.mul (length (List.filter (λ day, weekday (current_date + day) <? 5) days))
        (positions d).
Proof.
  induction days as [|day rest IH]; [done|].
  rewrite bind_cons, length_app, IH. cbn [List.filter]. unfold day_slots.
  destruct (Z.geb_spec (weekday (current_date + day)) 5) as [Hwd|Hwd];
    destruct (Z.ltb_spec (weekday (current_date + day)) 5); try lia; [reflexivity|].
  assert (∀ l, List.filter (is_clear []) l = l) as ->
    by (intros l; induction l as [|s l IHl]; cbn; congruence).
  rewrite length_grid. cbn [length]. lia.
Qed.

Lemma day_slots_sublist intervals intervals' d current_date (days : list Z) :
  intervals ⊆ intervals' →
  sublist (days ≫= day_slots intervals' d current_date)
    (days ≫= day_slots intervals d current_date).
Proof.
  intros Hsub. induction days as [|day rest IH]; [done|].
  rewrite !bind_cons. apply sublist_app; [|done]. unfold day_slots.
  destruct (weekday (current_date + day) >=? 5); [done|].
  apply filter_sublist_impl. intros s. rewrite !is_clear_spec.
  intros H c e Hin. apply H. by apply Hsub.
Qed.

Section Search.

Variable exn_str : PyExn → string.

(** With naive busy bounds, a duration that fits the window and dates
    of the calendar, the call returns the slots of the closed form. *)
Lemma find_available_slots_closed w d n q result intervals :
  0 < d ≤ 420 →
  1 ≤ date_of (utcnow w 2) →
  date_of (utcnow w 2) + n ≤ MAXORDINAL + 1 →
  freebusy_query w n = Return q →
  freebusy_execute w q = Return result →
  busy_of result = naive_entries intervals →
  find_available_slots exn_str w d n
    = Some (mkOutcome (slots_found n (expected_slots intervals d (date_of (utcnow w 2)) n))
              [FreeBusyCall q]).
Proof.
  intros Hd Htoday Hmax Hq Hr Hbusy. unfold find_available_slots.
  rewrite Hq, Hr, Hbusy, day_loop_closed; [done..|]. by apply seqZ_in_range.
Qed.

(** X1. With a busy list of naive bounds, a duration of 1 to 420
    minutes and dates of the calendar, the candidates are exactly the
    slots that start a whole number of quarters of an hour after 10:00
    of a searched working day, end by 17:00 of that day and overlap no
    busy interval: no free slot of the grid is left out. *)
Theorem candidates_are_the_free_grid_slots w d n q result intervals :
  let today := date_of (utcnow w 2) in
  0 < d ≤ 420 →
  1 ≤ today → today + n ≤ MAXORDINAL + 1 →
  freebusy_query w n = Return q →
  freebusy_execute w q = Return result →
  busy_of result = naive_entries intervals →
  ∃ out, find_available_slots exn_str w d n = Some out ∧
    ∀ s, s ∈ available_slots (response_of (returned out)) ↔
      ∃ day k, 0 ≤ day < n ∧ weekday (today + day) < 5 ∧ 0 ≤ k ∧
        start s = window_open (today + day) + k * (15 * US_PER_MINUTE) ∧
        end_ s = start s + d * US_PER_MINUTE ∧
        end_ s ≤ window_close (today + day) ∧
        ∀ c e, (c, e) ∈ intervals → end_ s ≤ c ∨ e ≤ start s.
Proof.
  intros today Hd Htoday Hmax Hq Hr Hbusy.
  eexists. split; [by eapply find_available_slots_closed|].
  intros s. cbn [returned]. rewrite slots_found_available. unfold expected_slots.
  rewrite list_elem_of_bind. fold today. split.
  - intros (day & Hs & Hday%elem_of_seqZ).
    apply elem_of_day_slots in Hs as (Hwd & k & Hk & -> & Hend & Hclear); [|done].
    exists day, k. split_and!; [lia|lia|done..].
  - intros (day & k & Hday & Hwd & Hk & Hstart & Hend & Hclose & Hclear).
    exists day. split; [|apply elem_of_seqZ; lia].
    apply elem_of_day_slots; [done|]. split; [done|]. exists k.
    destruct s as [a b]. cbn in *. subst. done.
Qed.

(** X2. With a duration of 1 to 420 minutes, dates of the calendar and
    a query that is answered with an empty busy list, every searched
    working day gives [(420 - duration) div 15 + 1] candidates: 25 a day
    for an hour. *)
Theorem free_calendar_candidate_count w d n q result :
  let today := date_of (utcnow w 2) in
  0 < d ≤ 420 →
  1 ≤ today → today + n ≤ MAXORDINAL + 1 →
  freebusy_query w n = Return q →
  freebusy_execute w q = Return result →
  busy_of result = [] →
  ∃ out, find_available_slots exn_str w d n = Some out ∧
    Z.of_nat (length (available_slots (response_of (returned out))))
      = Z.of_nat (length (working_days today n)) * ((420 - d) `div` 15 + 1).
Proof.
  intros today Hd Htoday Hmax Hq Hr Hbusy.
  eexists. split; [by eapply (find_available_slots_closed _ _ _ _ _ [])|].
  cbn [returned]. rewrite slots_found_available. unfold expected_slots.
  rewrite length_day_slots_free, Nat2Z.inj_mul. unfold working_days, positions. fold today.
  rewrite Z2Nat.id; [done|]. pose proof (Z.div_pos (420 - d) 15). lia.
Qed.

(** X3. Among busy lists of naive bounds, more busy intervals add no
    candidate: for two calls on the same date with the same duration of
    1 to 420 minutes and the same days, dates of the calendar, and
    queries answered with busy lists of naive bounds of which the second
    holds every interval of the first, the candidates of the second call
    are a subsequence, in the same order, of those of the first. *)
Theorem more_busy_fewer_candidates w w' d n q q' result result' intervals intervals' :
  0 < d ≤ 420 →
  1 ≤ date_of (utcnow w 2) → date_of (utcnow w 2) + n ≤ MAXORDINAL + 1 →
  date_of (utcnow w' 2) = date_of (utcnow w 2) →
  freebusy_query w n = Return q → freebusy_execute w q = Return result →
  freebusy_query w' n = Return q' → freebusy_execute w' q' = Return result' →
  busy_of result = naive_entries intervals →
  busy_of result' = naive_entries intervals' →
  intervals ⊆ intervals' →
  ∃ out out',
    find_available_slots exn_str w d n = Some out ∧
    find_available_slots exn_str w' d n = Some out' ∧
    sublist (available_slots (response_of (returned out')))
      (available_slots (response_of (returned out))).
Proof.
  intros Hd Htoday Hmax Hsame Hq Hr Hq' Hr' Hbusy Hbusy' Hsub.
  eexists _, _. split; [by eapply find_available_slots_closed|].
  split; [eapply find_available_slots_closed; by rewrite ?Hsame|].
  cbn [returned]. rewrite !slots_found_available, Hsame. by apply day_slots_sublist.
Qed.

(** X4. A first busy entry whose start carries a UTC offset (a text
    ending in Z, as the calendar backend sends it) and whose end is a
    time text cannot be ordered against the naive cursor: with a
    duration of 1 to 420 minutes, dates of the calendar, a query that is
    answered and a working day among the searched days, the call ends in
    the [except] branch with a TypeError, without candidates, whatever
    else the busy list holds. *)
Theorem aware_busy_start_fails_the_search w d n q result b rest t :
  let today := date_of (utcnow w 2) in
  0 < d ≤ 420 →
  1 ≤ today → today + n ≤ MAXORDINAL + 1 →
  (∃ day, 0 ≤ day < n ∧ weekday (today + day) < 5) →
  freebusy_query w n = Return q →
  freebusy_execute w q = Return result →
  busy_of result = b :: rest →
  busy_start_text b = IsoAware t →
  (∃ t', busy_end_text b = IsoNaive t' ∨ busy_end_text b = IsoAware t') →
  find_available_slots exn_str w d n = Some (slots_failed exn_str [FreeBusyCall q] TypeError).
Proof.
  intros today Hd Htoday Hmax (day & Hday & Hwd) Hq Hr Hbusy Hstart Hend.
  unfold find_available_slots. rewrite Hq, Hr, Hbusy.
  rewrite (day_loop_raises b rest d today TypeError); [done|done|done| | |].
  - right. right. eauto.
  - by apply seqZ_in_range.
  - apply Exists_exists. exists day. split; [apply elem_of_seqZ; lia|done].
Qed.

(** X5. A first busy entry without a start (a missing key) or with a
    start that is no time text ends the search the same way, under the
    same conditions (a duration of 1 to 420 minutes, dates of the
    calendar, a query that is answered, a working day among the searched
    days), with the exception of the lookup or of the parser. *)
Theorem malformed_busy_start_fails_the_search w d n q result b rest e :
  let today := date_of (utcnow w 2) in
  0 < d ≤ 420 →
  1 ≤ today → today + n ≤ MAXORDINAL + 1 →
  (∃ day, 0 ≤ day < n ∧ weekday (today + day) < 5) →
  freebusy_query w n = Return q →
  freebusy_execute w q = Return result →
  busy_of result = b :: rest →
  busy_start_text b = IsoInvalid e →
  find_available_slots exn_str w d n = Some (slots_failed exn_str [FreeBusyCall q] e).
Proof.
  intros today Hd Htoday Hmax (day & Hday & Hwd) Hq Hr Hbusy Hstart.
  unfold find_available_slots. rewrite Hq, Hr, Hbusy.
  rewrite (day_loop_raises b rest d today e); [done|done|done|by left| |].
  - by apply seqZ_in_range.
  - apply Exists_exists. exists day. split; [apply elem_of_seqZ; lia|done].
Qed.

(** X6. When no searched day is a working day (also when [days_ahead]
    is zero or negative), the busy list is never looked at: the answer
    is the no-candidate answer, whatever the duration and the busy
    list. *)
Theorem no_working_day_no_candidates w d n q result :
  let today := date_of (utcnow w 2) in
  1 ≤ today → today + n ≤ MAXORDINAL + 1 →
  (∀ day, 0 ≤ day < n → 5 ≤ weekday (today + day)) →
  freebusy_query w n = Return q →
  freebusy_execute w q = Return result →
  find_available_slots exn_str w d n
    = Some (mkOutcome (no_slots_answer n) [FreeBusyCall q]).
Proof.
  intros today Htoday Hmax Hweekend Hq Hr.
  unfold find_available_slots. rewrite Hq, Hr.
  rewrite day_loop_no_working_day; [done|done|].
  apply Forall_forall. intros day Hday%elem_of_seqZ. cbn beta. fold today.
  split_and!; [lia|lia|apply Hweekend; lia].
Qed.

(** X7. For a duration above -1020 minutes the selected slot is the
    earliest candidate: no candidate starts before it. *)
Theorem selected_is_earliest w d n :
  -1020 < d →
  ∃ out, find_available_slots exn_str w d n = Some out ∧
    ∀ s0 s,
      selected_slot (response_of (returned out)) = Some s0 →
      s ∈ available_slots (response_of (returned out)) →
      start s0 ≤ start s.
Proof.
  intros Hd.
  destruct (find_available_slots_cases exn_str w d n)
    as (out & Hout & [(tr & e & ->)|(q & result & l & _ & _ & Hl & ->)]);
    (eexists; split; [done|]); cbn [returned response_of slots_failed].
  { intros s0 s _ Hs. by apply elem_of_nil in Hs. }
  rewrite slots_found_available, slots_found_selected. intros s0 s Hhead Hs.
  eapply chronological_head_least; [|done..].
  destruct (Z.le_gt_cases n 0) as [Hn|Hn].
  - rewrite seqZ_nil in Hl by done. injection Hl as <-. constructor.
  - rewrite <-(Z2Nat.id n) in Hl by lia.
    eapply day_loop_chronological in Hl; [done|done|constructor|constructor].
Qed.

(** X8. Every candidate lasts exactly the requested number of minutes
    and starts a whole number of quarters of an hour after 10:00 of a
    searched day: the slots are never moved off the grid to fit a gap
    between meetings. *)
Theorem candidates_on_the_quarter_hour_grid w d n :
  ∃ out, find_available_slots exn_str w d n = Some out ∧
    ∀ s, s ∈ available_slots (response_of (returned out)) →
      end_ s - start s = d * US_PER_MINUTE ∧
      ∃ day k, 0 ≤ day < n ∧ 0 ≤ k ∧
        start s = window_open (date_of (utcnow w 2) + day) + k * (15 * US_PER_MINUTE).
Proof.
  destruct (candidates_generated exn_str w d n) as (out & Hout & Hgen).
  exists out. split; [done|]. intros s Hs.
  destruct (Hgen s Hs) as (_ & result & day & _ & _ & Hday & _ & (k & Hk & Hstart) & Hend & _).
  split; [lia|]. by exists day, k.
Qed.

(** X9. The search only reads: it makes at most one free/busy query, a
    failed query is not tried again, no event is inserted and nothing
    waits; the log is written exactly when the call ends in the
    [except] branch. *)
Theorem search_only_reads w d n :
  ∃ out, find_available_slots exn_str w d n = Some out ∧
    (backend_calls (effects out) ≤ 1)%nat ∧
    insert_calls (effects out) = 0%nat ∧
    waits (effects out) = [] ∧
    (slots_error exn_str out ↔ ∃ level msg, Log level msg ∈ effects out).
Proof.
  assert (∀ tr e,
    (backend_calls tr ≤ 1)%nat → insert_calls tr = 0%nat → waits tr = [] →
    let out := slots_failed exn_str tr e in
    (backend_calls (effects out) ≤ 1)%nat ∧ insert_calls (effects out) = 0%nat ∧
    waits (effects out) = [] ∧
    (slots_error exn_str out ↔ ∃ level msg, Log level msg ∈ effects out)) as Hfailed.
  { intros tr e Hb Hi Hw out. unfold out, slots_failed. cbn [effects].
    unfold backend_calls, insert_calls, waits in *.
    rewrite !List.filter_app, !length_app, omap_app, Hw. cbn. split_and!; [lia|lia|done|].
    split; [|by exists tr, e]. intros _. eexists _, _. apply elem_of_app. right. by left. }
  unfold find_available_slots.
  destruct (freebusy_query w n) as [q|e0].
  2: { eexists. split; [done|]. apply Hfailed; cbn; (lia || done). }
  destruct (freebusy_execute w q) as [result|e0].
  2: { eexists. split; [done|]. apply Hfailed; cbn; (lia || done). }
  destruct (day_loop_returns (busy_of result) d (date_of (utcnow w 2)) (seqZ 0 n) [])
    as [[l|e0] ->].
  2: { eexists. split; [done|]. apply Hfailed; cbn; (lia || done). }
  eexists. split; [done|]. cbn [effects]. split_and!; [cbn; lia|done|done|].
  split.
  - intros (tr & e & Heq). symmetry in Heq. by apply slots_failed_not_found in Heq.
  - intros (level & msg & Hin). apply list_elem_of_singleton in Hin. done.
Qed.

End Search.

(** * Further properties of the booking *)

Lemma success_logs_are_logs created :
  Forall (λ ef, is_log ef = true) (success_logs created).
Proof.
  constructor; [done|]. destruct (created_attendees created); [|constructor].
  apply attendee_logs_are_logs.
Qed.

Lemma validation_errors_cases (d : gmap string PyVal) :
  validation_errors d = [] ↔
    (∃ s, d !! "summary" = Some (VStr s)) ∧
    (d !! "description" = None ∨ d !! "description" = Some VNone
       ∨ ∃ s, d !! "description" = Some (VStr s)) ∧
    (∃ s, d !! "start_time" = Some (VStr s)) ∧
    (∃ s, d !! "end_time" = Some (VStr s)) ∧
    (∃ l, d !! "attendees" = Some (VList l) ∧ forallb is_str l = true) ∧
    (d !! "timezone" = None ∨ ∃ s, d !! "timezone" = Some (VStr s)) ∧
    extra_keys d = [].
Proof.
  unfold validation_errors, check_str, check_optional_str, check_default_str, check_str_list.
  split.
  - intros H. repeat (apply app_eq_nil in H as [? H]).
    split_and!; try done;
      repeat match goal with
             | H : match ?x with _ => _ end = [] |- _ => destruct x eqn:?; try discriminate H
             end; eauto.
  - intros ([s1 ->] & Hdesc & [s2 ->] & [s3 ->] & (l & -> & ->) & Htz & ->).
    destruct Hdesc as [->|[->|[s ->]]]; destruct Htz as [->|[s' ->]]; done.
Qed.

Lemma validate_details_Raise (d : gmap string PyVal) :
  validation_errors d ≠ [] → ∃ e, validate_details d = Raise e.
Proof. unfold validate_details. destruct (validation_errors d); [done|eauto]. Qed.

Lemma validate_details_Return (d : gmap string PyVal) details :
  validate_details d = Return details → validation_errors d = [].
Proof. unfold validate_details. by destruct (validation_errors d). Qed.

Lemma extra_key_is_an_error (d : gmap string PyVal) k v :
  d !! k = Some v → k ∉ field_names → validation_errors d ≠ [].
Proof.
  intros Hk Hnot Herr. apply validation_errors_cases in Herr as (_ & _ & _ & _ & _ & _ & Hextra).
  assert (k ∈ extra_keys d) as Hin; [|by rewrite Hextra in Hin; apply elem_of_nil in Hin].
  unfold extra_keys. apply list_elem_of_filter. split; [done|].
  apply elem_of_elements, elem_of_dom. eauto.
Qed.

Section Runs.

Variable exn_str : PyExn → string.

Lemma create_event_invalid w event_details e :
  validate_details event_details = Raise e →
  create_event exn_str w event_details = Some (event_failed exn_str [] e).
Proof. intros Hv. unfold create_event. by rewrite Hv. Qed.

(** The four runs of [create_event] on valid details: the first, second
    or third attempt succeeds, or all three fail. *)
Lemma create_event_valid w event_details details :
  validate_details event_details = Return details →
  let event := event_body w details in
  let call := InsertCall event insert_options in
  let ins i := events_insert w i event insert_options in
  (∃ ce, ins 0%nat = Return ce ∧
     create_event exn_str w event_details
       = Some (mkOutcome (success_response ce) ([call] ++ success_logs ce))) ∨
  (∃ e1 ce, ins 0%nat = Raise e1 ∧ ins 1%nat = Return ce ∧
     create_event exn_str w event_details
       = Some (mkOutcome (success_response ce)
                 ([call; attempt_warning exn_str 1 e1; Sleep 2; call] ++ success_logs ce))) ∨
  (∃ e1 e2 ce, ins 0%nat = Raise e1 ∧ ins 1%nat = Raise e2 ∧ ins 2%nat = Return ce ∧
     create_event exn_str w event_details
       = Some (mkOutcome (success_response ce)
                 ([call; attempt_warning exn_str 1 e1; Sleep 2;
                   call; attempt_warning exn_str 2 e2; Sleep 4; call] ++ success_logs ce))) ∨
  (∃ e1 e2 e3, ins 0%nat = Raise e1 ∧ ins 1%nat = Raise e2 ∧ ins 2%nat = Raise e3 ∧
     create_event exn_str w event_details
       = Some (event_failed exn_str
                 [call; attempt_warning exn_str 1 e1; Sleep 2;
                  call; attempt_warning exn_str 2 e2; Sleep 4;
                  call; attempt_warning exn_str 3 e3] e3)).
Proof.
  intros Hv event call ins. unfold create_event. rewrite Hv. fold event.
  change (S (Z.to_nat max_retries)) with 4%nat. cbn [insert_loop].
  change (0 <? max_retries) with true. cbn match.
  destruct (events_insert w 0 event insert_options) as [ce|e1] eqn:H0.
  { left. exists ce. split; [done|]. reflexivity. }
  cbn zeta. change (0 + 1 =? max_retries) with false. cbn match.
  change (0 + 1 <? max_retries) with true. cbn match.
  destruct (events_insert w 1 event insert_options) as [ce|e2] eqn:H1.
  { right. left. exists e1, ce. split_and!; [done|done|]. reflexivity. }
  cbn zeta. change (0 + 1 + 1 =? max_retries) with false. cbn match.
  change (0 + 1 + 1 <? max_retries) with true. cbn match.
  destruct (events_insert w 2 event insert_options) as [ce|e3] eqn:H2.
  { right. right. left. exists e1, e2, ce. split_and!; [done|done|done|]. reflexivity. }
  right. right. right. exists e1, e2, e3. split_and!; [done|done|done|]. reflexivity.
Qed.

End Runs.

Lemma insert_not_in_logs logs body opts :
  Forall (λ ef, is_log ef = true) logs → InsertCall body opts ∉ logs.
Proof. intros Hlogs Hin. by eapply (proj1 (Forall_forall _ _) Hlogs) in Hin. Qed.

Lemma attendee_log_message a :
  attendee_log a ≠ Log WARNING "Failed to send email notifications to attendees.".
Proof. unfold attendee_log. case_bool_decide; intros [=]. Qed.

Lemma texts_round_trip (l : list PyVal) :
  forallb is_str l = true → VStr <$> (str_of <$> l) = l.
Proof.
  induction l as [|v l IH]; [done|]. cbn. intros [Hv Hl]%andb_prop.
  destruct v; try done. cbn. by rewrite IH.
Qed.

Section Booked.

Variable exn_str : PyExn → string.

(** X10. A failed attempt is no failure of the booking: when the
    second or the third attempt is the first one the backend accepts,
    the result is the success result with the links and the id of the
    event created, after as many insert calls as attempts and the waits
    2, then 4 between them. *)
Theorem success_after_failed_attempts w event_details details j created :
  validate_details event_details = Return details →
  (j < 3)%nat →
  (∀ i, (i < j)%nat →
     ∃ e, events_insert w i (event_body w details) insert_options = Raise e) →
  events_insert w j (event_body w details) insert_options = Return created →
  ∃ out, create_event exn_str w event_details = Some out ∧
    returned out = mkEventResponse "success" (htmlLink created) (hangoutLink created)
                     (created_id created) None ∧
    insert_calls (effects out) = S j ∧
    waits (effects out) = (λ i, 2 ^ i) <$> seqZ 1 (Z.of_nat j).
Proof.
  intros Hv Hj Hfail Hok.
  assert (∀ i ce, (i < j)%nat →
            events_insert w i (event_body w details) insert_options ≠ Return ce) as Hno.
  { intros i ce Hi Heq. destruct (Hfail i Hi) as [e He]. congruence. }
  destruct (create_event_valid exn_str w event_details details Hv)
    as [(ce & H0 & ->)|[(e1 & ce & H0 & H1 & ->)|[(e1 & e2 & ce & H0 & H1 & H2 & ->)
        |(e1 & e2 & e3 & H0 & H1 & H2 & ->)]]];
    destruct j as [|[|[|j]]]; try lia; try congruence;
    try (exfalso; by eapply (Hno 0%nat); [lia|]);
    try (exfalso; by eapply (Hno 1%nat); [lia|]);
    (eexists; split; [done|]); cbn [returned effects];
    match goal with |- context [?tr ++ success_logs ce] =>
      destruct (quiet_suffix tr _ (success_logs_are_logs ce)) as (-> & -> & _) end;
    (split_and!; [|done..]); unfold success_response; congruence.
Qed.

(** X11. Every insert call of a run carries the same payload and the
    same options: the request id of the conference is made once, before
    the first attempt, so a retry repeats it, and every attempt asks the
    backend to notify all attendees. *)
Theorem every_attempt_resends_the_payload w event_details details :
  validate_details event_details = Return details →
  ∃ out, create_event exn_str w event_details = Some out ∧
    ∀ body opts, InsertCall body opts ∈ effects out →
      body = event_body w details ∧ opts = insert_options ∧
      requestId body = "event_" +:+ now_timestamp w ∧
      sendUpdates opts = "all" ∧ sendNotifications opts = true.
Proof.
  intros Hv.
  destruct (create_event_valid exn_str w event_details details Hv)
    as [(ce & H0 & ->)|[(e1 & ce & H0 & H1 & ->)|[(e1 & e2 & ce & H0 & H1 & H2 & ->)
        |(e1 & e2 & e3 & H0 & H1 & H2 & ->)]]];
    (eexists; split; [done|]); intros body opts; unfold event_failed; cbn [effects];
    intros [Hin|Hin]%elem_of_app;
    try (by apply insert_not_in_logs in Hin; [|apply success_logs_are_logs]);
    try (by apply list_elem_of_singleton in Hin);
    repeat (apply elem_of_cons in Hin as [Hin|Hin]);
    try (by apply elem_of_nil in Hin); try discriminate Hin;
    by injection Hin as -> ->.
Qed.

(** X12. A run never waits more than 6 seconds in all (2 after the
    first failure, 4 after the second), and does not wait at all when
    the first attempt is the last. *)
Theorem total_wait_is_bounded w event_details :
  ∃ out, create_event exn_str w event_details = Some out ∧
    0 ≤ total_wait (effects out) ≤ 6 ∧
    ((insert_calls (effects out) ≤ 1)%nat → total_wait (effects out) = 0).
Proof.
  destruct (validate_details event_details) as [details|e] eqn:Hv.
  2: { eexists. split; [by apply create_event_invalid|]. done. }
  destruct (create_event_valid exn_str w event_details details Hv)
    as [(ce & H0 & ->)|[(e1 & ce & H0 & H1 & ->)|[(e1 & e2 & ce & H0 & H1 & H2 & ->)
        |(e1 & e2 & e3 & H0 & H1 & H2 & ->)]]];
    (eexists; split; [done|]); unfold total_wait; cbn [effects];
    try match goal with |- context [?tr ++ success_logs ce] =>
      destruct (quiet_suffix tr _ (success_logs_are_logs ce)) as (-> & -> & _) end;
    cbn; split; try lia.
Qed.

(** X13. The result has one of two shapes: the success result, without
    an error message, or the error result, without any link or id. The
    error result is returned in two cases only: the event details fail
    the validation (message of the validation, no backend call), or all
    three attempts fail (message of the third failure; the messages of
    the first two are only logged). *)
Theorem failure_has_two_causes w event_details :
  ∃ out, create_event exn_str w event_details = Some out ∧
    ((status (returned out) = "success" ∧ error_message (returned out) = None) ∨
     (status (returned out) = "error" ∧
      event_link (returned out) = None ∧ meet_link (returned out) = None ∧
      event_id (returned out) = None ∧
      ((∃ e, validate_details event_details = Raise e ∧
          error_message (returned out) = Some (exn_str e) ∧
          backend_calls (effects out) = 0%nat) ∨
       (∃ details e,
          validate_details event_details = Return details ∧
          events_insert w 2 (event_body w details) insert_options = Raise e ∧
          error_message (returned out) = Some (exn_str e) ∧
          insert_calls (effects out) = 3%nat)))).
Proof.
  destruct (validate_details event_details) as [details|e] eqn:Hv.
  2: { eexists. split; [by apply create_event_invalid|]. right.
       split_and!; [done..|]. left. by exists e. }
  destruct (create_event_valid exn_str w event_details details Hv)
    as [(ce & H0 & ->)|[(e1 & ce & H0 & H1 & ->)|[(e1 & e2 & ce & H0 & H1 & H2 & ->)
        |(e1 & e2 & e3 & H0 & H1 & H2 & ->)]]];
    (eexists; split; [done|]); [by left..|].
  right. split_and!; [done..|]. right. by exists details, e3.
Qed.

(** X14. The warning "Failed to send email notifications to attendees."
    of line 247 is never logged: the loop is left either with an event
    created or through the [raise] of line 241. *)
Theorem notification_failure_is_never_logged w event_details :
  ∃ out, create_event exn_str w event_details = Some out ∧
    Log WARNING "Failed to send email notifications to attendees." ∉ effects out.
Proof.
  assert (∀ ce, Log WARNING "Failed to send email notifications to attendees."
                  ∉ success_logs ce) as Hlogs.
  { intros ce [Hin|Hin]%elem_of_cons; [done|].
    destruct (created_attendees ce) as [l|]; [|by apply elem_of_nil in Hin].
    apply list_elem_of_fmap in Hin as (a & Ha & _). symmetry in Ha.
    by apply attendee_log_message in Ha. }
  destruct (validate_details event_details) as [details|e] eqn:Hv.
  2: { eexists. split; [by apply create_event_invalid|].
       intros Hin. by apply list_elem_of_singleton in Hin. }
  destruct (create_event_valid exn_str w event_details details Hv)
    as [(ce & H0 & ->)|[(e1 & ce & H0 & H1 & ->)|[(e1 & e2 & ce & H0 & H1 & H2 & ->)
        |(e1 & e2 & e3 & H0 & H1 & H2 & ->)]]];
    (eexists; split; [done|]); unfold event_failed; cbn [effects];
    intros [Hin|Hin]%elem_of_app;
    try (by apply Hlogs in Hin);
    try (by apply list_elem_of_singleton in Hin);
    repeat (apply elem_of_cons in Hin as [Hin|Hin]);
    try (by apply elem_of_nil in Hin); discriminate Hin.
Qed.

(** X15. What the backend is sent is what the caller gave: the title,
    the two time texts and the attendee emails of the payload are the
    values of the event details, start and end carry the same time zone,
    the one given or "UTC" when none is given, and the reminders and the
    rights of the guests are fixed. *)
Theorem payload_carries_the_details w (event_details : gmap string PyVal) details :
  validate_details event_details = Return details →
  let body := event_body w details in
  event_details !! "summary" = Some (VStr (body_summary body)) ∧
  event_details !! "start_time" = Some (VStr (dateTime (body_start body))) ∧
  event_details !! "end_time" = Some (VStr (dateTime (body_end body))) ∧
  event_details !! "attendees" = Some (VList (VStr <$> body_attendees body)) ∧
  timeZone (body_start body) = timeZone (body_end body) ∧
  (event_details !! "timezone" = Some (VStr (timeZone (body_start body))) ∨
   event_details !! "timezone" = None ∧ timeZone (body_start body) = "UTC") ∧
  overrides body = [mkOverride "email" 1440; mkOverride "popup" 30] ∧
  guestsCanInviteOthers body = false ∧ guestsCanModify body = false ∧
  guestsCanSeeOtherGuests body = true.
Proof.
  intros Hv body. apply validate_details_Return in Hv as Herr.
  apply validation_errors_cases in Herr
    as ([s1 H1] & _ & [s2 H2] & [s3 H3] & (l & H4 & Hl) & Htz & _).
  revert Hv. unfold validate_details.
  destruct (validation_errors event_details); [|done].
  rewrite H1, H2, H3, H4. intros [= <-]. subst body. cbn.
  split_and!; try done.
  - by rewrite texts_round_trip.
  - destruct Htz as [->|[s ->]]; [by right|by left].
Qed.

(** X16. Event details that lack a required text or give it another
    type, that give no list of texts for the attendees, or that hold a
    key the model does not know, are refused before the backend is
    reached: the error result, one line in the log, no insert call. *)
Theorem refused_details_reach_no_backend w (event_details : gmap string PyVal) :
  (∃ k, k ∈ required_texts ∧ ∀ s, event_details !! k ≠ Some (VStr s)) ∨
  (∀ v, event_details !! "attendees" = Some v → is_text_list v = false) ∨
  (∃ k v, event_details !! k = Some v ∧ k ∉ field_names) →
  ∃ out e, create_event exn_str w event_details = Some out ∧
    returned out = mkEventResponse "error" None None None (Some (exn_str e)) ∧
    effects out = [Log ERROR ("Event creation failed: " +:+ exn_str e)] ∧
    backend_calls (effects out) = 0%nat.
Proof.
  intros Hbad.
  assert (validation_errors event_details ≠ []) as Herr.
  { destruct Hbad as [(k & Hk & Hno)|[Hatt|(k & v & Hk & Hnot)]].
    - intros (H1 & _ & H2 & H3 & _)%validation_errors_cases.
      unfold required_texts in Hk.
      repeat (apply elem_of_cons in Hk as [->|Hk]); [| | |by apply elem_of_nil in Hk].
      + destruct H1 as [s Hs]. by eapply Hno.
      + destruct H2 as [s Hs]. by eapply Hno.
      + destruct H3 as [s Hs]. by eapply Hno.
    - intros (_ & _ & _ & _ & (l & Hl & Hall) & _)%validation_errors_cases.
      specialize (Hatt _ Hl). cbn in Hatt. congruence.
    - by eapply extra_key_is_an_error. }
  destruct (validate_details_Raise _ Herr) as [e He].
  eexists _, e. split; [by apply create_event_invalid|]. done.
Qed.

End Booked.

(** * The range of the query and the check of the credentials *)

Lemma freebusy_query_Return w n q :
  freebusy_query w n = Return q →
  timeMin q = utcnow w 0 ∧ timeMax q = utcnow w 1 + n * US_PER_DAY.
Proof.
  unfold freebusy_query, py_bind.
  destruct (timedelta_days n) as [td|] eqn:Etd; [|done].
  apply timedelta_of_Return in Etd. subst td.
  destruct (datetime_add _ _) as [end_date|] eqn:Eadd; [|done].
  apply datetime_add_Return in Eadd as [-> _]. by intros [= <-].
Qed.

Section Range.

Variable exn_str : PyExn → string.

(** X17. The free/busy query reaches past the last candidate: when the
    query can be made and the date of the third reading of the clock
    (line 129, the first day searched) is not after the date of the
    second (line 115, from which [timeMax] is made), so that midnight
    does not pass between the two, every candidate ends before
    [timeMax] of the query. *)
Theorem query_reaches_past_the_last_candidate w d n q :
  freebusy_query w n = Return q →
  date_of (utcnow w 2) ≤ date_of (utcnow w 1) →
  ∃ out, find_available_slots exn_str w d n = Some out ∧
    ∀ s, s ∈ available_slots (response_of (returned out)) → end_ s < timeMax q.
Proof.
  intros Hq Hdate. destruct (candidates_generated exn_str w d n) as (out & Hout & Hgen).
  exists out. split; [done|]. intros s Hs.
  destruct (Hgen s Hs) as (q' & result & day & Hq' & _ & Hday & _ & _ & _ & Hclose & _).
  apply freebusy_query_Return in Hq as [_ ->].
  pose proof (Z.mul_div_le (utcnow w 1) US_PER_DAY eq_refl) as Hnow.
  revert Hclose Hdate Hnow. unfold date_of, window_close, combine, time_of_day.
  generalize (utcnow w 2 `div` US_PER_DAY) (utcnow w 1 `div` US_PER_DAY).
  unfold US_PER_DAY, US_PER_MINUTE. intros today day1. nia.
Qed.

(** The answer and the log of [verify_credentials], by what the loader
    gives. *)
Lemma verify_credentials_cases loaded :
  let out := verify_credentials exn_str loaded in
  (returned out = true ↔
     ∃ creds creds_scopes,
       loaded = Return creds ∧ valid creds = true ∧ scopes creds = Some creds_scopes ∧
       ∀ scope, scope ∈ service_scopes → scope ∈ creds_scopes) ∧
  (returned out = true → effects out = []) ∧
  (returned out = false → ∃ level msg, effects out = [Log level msg]).
Proof.
  cbn zeta. unfold verify_credentials.
  destruct loaded as [[v sc]|e]; cbn [valid scopes].
  2: { split_and!; [|done|by eexists _, _]. split; [done|]. by intros (? & ? & ? & _). }
  destruct v; cbn [negb].
  2: { split_and!; [|done|by eexists _, _]. split; [done|].
       intros (? & ? & [= <-] & ? & _). done. }
  destruct sc as [held|].
  2: { split_and!; [|done|by eexists _, _]. split; [done|].
       intros (? & ? & [= <-] & _ & ? & _). done. }
  destruct (filter (λ scope, scope ∉ held) service_scopes) as [|m ms] eqn:Hmissing.
  - split_and!; [|done|done]. split; [|done]. intros _. exists (mkCredentials true (Some held)), held.
    split_and!; [done..|]. intros scope Hscope.
    destruct (decide (scope ∈ held)) as [|Hnot]; [done|].
    assert (scope ∈ filter (λ scope, scope ∉ held) service_scopes) as Hin
      by (by apply list_elem_of_filter).
    rewrite Hmissing in Hin. by apply elem_of_nil in Hin.
  - split_and!; [|done|by eexists _, _]. split; [done|].
    intros (? & held' & [= <-] & _ & [= <-] & Hall).
    assert (m ∈ filter (λ scope, scope ∉ held) service_scopes) as Hin
      by (rewrite Hmissing; by left).
    apply list_elem_of_filter in Hin as [Hnot Hm]. exfalso. by apply Hnot, Hall.
Qed.

(** X18. [verify_credentials] answers true exactly when [token.json]
    loads, the loaded credentials are valid and every one of the four
    scopes of the service is in their [scopes] attribute. That attribute
    is what the loader sets, and line 92 hands the loader the four
    scopes themselves: when the loader reports the scopes it was given,
    the answer is [creds.valid] alone, whatever the token was granted,
    and the branch of the missing scopes is not taken. With the answer
    true nothing is logged; in every other case the answer is false
    after one line in the log; nothing is raised. *)
Theorem credentials_pass_with_all_scopes loaded :
  let out := verify_credentials exn_str loaded in
  (returned out = true ↔
     ∃ creds creds_scopes,
       loaded = Return creds ∧ valid creds = true ∧ scopes creds = Some creds_scopes ∧
       ∀ scope, scope ∈ service_scopes → scope ∈ creds_scopes) ∧
  (∀ creds, loaded = Return creds → scopes creds = Some service_scopes →
     returned out = valid creds ∧
     (valid creds = false →
        effects out = [Log WARNING "Credentials are not valid or have expired"])) ∧
  (returned out = true → effects out = []) ∧
  (returned out = false → ∃ level msg, effects out = [Log level msg]).
Proof.
  cbn zeta. destruct (verify_credentials_cases loaded) as (Hiff & Hquiet & Hlog).
  split_and!; [exact Hiff| |exact Hquiet|exact Hlog].
  intros [v sc] -> Hsc. cbn [scopes] in Hsc. subst sc.
  unfold verify_credentials. cbn [valid scopes].
  destruct v; cbn [negb]; [|done].
  split; [by vm_compute|done].
Qed.

End Range.

(** * The constructor *)

Lemma auth_logs_no_step logs :
  flows (auth_logs logs) = 0%nat ∧ token_loads (auth_logs logs) = 0%nat.
Proof.
  unfold flows, token_loads, auth_logs.
  induction logs as [|ef logs [IH1 IH2]]; [done|]. by destruct ef.
Qed.

Lemma flows_app tr tr' : flows (tr ++ tr') = (flows tr + flows tr')%nat.
Proof. unfold flows. by rewrite List.filter_app, length_app. Qed.

Lemma token_loads_app tr tr' : token_loads (tr ++ tr') = (token_loads tr + token_loads tr')%nat.
Proof. unfold token_loads. by rewrite List.filter_app, length_app. Qed.

Section Constructor.

Variable exn_str : PyExn → string.

(** One call of [_authenticate]: it counts as one authentication, runs
    at most one flow, does not read the token, and when it returns a
    service the token file holds the credentials of that service. *)
Lemma authenticate_step aw st :
  let run := _authenticate exn_str aw st in
  authentications run.2 = S (authentications st) ∧
  (∃ added, auth_trace run.2 = auth_trace st ++ added ∧
     (flows added ≤ 1)%nat ∧ token_loads added = 0%nat) ∧
  (∀ service, run.1 = Return service → token_json run.2 = Some (credentials_of service)).
Proof.
  cbn zeta. unfold _authenticate, authentication_failed, auth_did.
  destruct (path_exists aw (authentications st)); cbn [negb].
  2: { cbn. split_and!; [done| |done]. eexists. split; [done|]. cbn. lia. }
  destruct (run_flow aw (authentications st)) as [text|e].
  2: { cbn. split_and!; [done| |done]. eexists. split; [by rewrite <-app_assoc|]. cbn. lia. }
  destruct (write_token aw (authentications st)) as [[]|e].
  2: { cbn. split_and!; [done| |done]. eexists. split; [by rewrite <-app_assoc|]. cbn. lia. }
  destruct (build aw (authentications st)) as [[]|e].
  2: { cbn. split_and!; [done| |done]. eexists. split; [by rewrite <-app_assoc|]. cbn. lia. }
  cbn. split_and!; [done| |by intros service [= <-]].
  eexists. split; [by rewrite <-app_assoc|]. cbn. lia.
Qed.

(** A call of [_authenticate] in which every step goes through. *)
Lemma authenticate_ok aw st text :
  path_exists aw (authentications st) = true →
  run_flow aw (authentications st) = Return text →
  write_token aw (authentications st) = Return () →
  build aw (authentications st) = Return () →
  _authenticate exn_str aw st
    = (Return (mkService text),
       mkAuthState (Some text) (S (authentications st))
         (auth_trace st ++ [FlowRun; TokenWritten text; ServiceBuilt text])).
Proof.
  intros Hp Hf Hw Hb. unfold _authenticate. rewrite Hp, Hf, Hw, Hb.
  unfold auth_did. cbn [negb token_json authentications auth_trace].
  by rewrite <-app_assoc.
Qed.

(** X19. The constructor calls [_authenticate] once or twice, so it
    runs at most two OAuth flows, and it checks the credentials at most
    once. When it returns, [token.json] holds the credentials the
    service was built with. *)
Theorem constructor_authenticates_at_most_twice aw token :
  let run := CalendarService_init exn_str aw (at_start token) in
  (1 ≤ authentications run.2 ≤ 2)%nat ∧
  (flows (auth_trace run.2) ≤ 2)%nat ∧
  (token_loads (auth_trace run.2) ≤ 1)%nat ∧
  ∀ service, run.1 = Return service → token_json run.2 = Some (credentials_of service).
Proof.
  cbn zeta. unfold CalendarService_init.
  pose proof (authenticate_step aw (at_start token)) as (Hn & (added & Htr & Hflows & Hloads) & Htoken).
  destruct (_authenticate exn_str aw (at_start token)) as [[service|e] st] eqn:Hauth;
    cbn [fst snd] in *.
  2: { rewrite Hn, Htr. cbn [at_start authentications auth_trace app].
       split_and!; [lia|lia|lia|lia|done]. }
  set (verified := verify_credentials exn_str (load_token aw (token_json st))).
  destruct (auth_logs_no_step (effects verified)) as [Hl1 Hl2].
  destruct (returned verified).
  { cbn [fst snd auth_did authentications auth_trace token_json].
    rewrite Hn, Htr. cbn [at_start authentications auth_trace app].
    change (TokenLoaded :: ?l) with ([TokenLoaded] ++ l).
    rewrite !flows_app, !token_loads_app, Hl1, Hl2, Hloads.
    change (flows [TokenLoaded]) with 0%nat. change (token_loads [TokenLoaded]) with 1%nat.
    split_and!; [lia|lia|lia|lia|]. intros service' [= <-]. by apply Htoken. }
  match goal with |- context [_authenticate exn_str aw ?st2] =>
    pose proof (authenticate_step aw st2) as (Hn2 & (added2 & Htr2 & Hflows2 & Hloads2) & Htoken2);
    destruct (_authenticate exn_str aw st2) as [r2 st2'] end.
  cbn [fst snd] in *. rewrite Hn2, Htr2. cbn [auth_did authentications auth_trace].
  rewrite Hn, Htr. cbn [at_start authentications auth_trace app].
  change (TokenLoaded :: ?l) with ([TokenLoaded] ++ l).
  rewrite !flows_app, !token_loads_app, Hl1, Hl2, Hloads, Hloads2.
  change (flows [TokenLoaded]) with 0%nat. change (token_loads [TokenLoaded]) with 1%nat.
  change (flows [AuthLog ERROR "Credential verification failed - recreating service"])
    with 0%nat.
  change (token_loads [AuthLog ERROR "Credential verification failed - recreating service"])
    with 0%nat.
  split_and!; [lia|lia|lia|lia|done].
Qed.

(** X20. Without the credentials file the constructor raises
    FileNotFoundError after one line in the log: no OAuth flow is run,
    the credentials are not checked and [token.json] is left as it
    was. *)
Theorem missing_credentials_file_stops_the_constructor aw token :
  path_exists aw 0 = false →
  let e := Raised "FileNotFoundError" "Credentials file not found" in
  CalendarService_init exn_str aw (at_start token)
    = (Raise e,
       mkAuthState token 1 [AuthLog ERROR ("Authentication failed: " +:+ exn_str e)]).
Proof.
  intros Hpath. cbn zeta. unfold CalendarService_init, _authenticate. cbn.
  by rewrite Hpath.
Qed.

(** X21. The credentials of a second authentication are not checked:
    when the first credentials fail the check and the second
    authentication goes through, the constructor returns the service of
    the second credentials, whatever these are, after two flows and one
    reading of the token. *)
Theorem second_credentials_are_not_checked aw token text1 text2 :
  path_exists aw 0 = true → run_flow aw 0 = Return text1 →
  write_token aw 0 = Return () → build aw 0 = Return () →
  returned (verify_credentials exn_str (load_token aw (Some text1))) = false →
  path_exists aw 1 = true → run_flow aw 1 = Return text2 →
  write_token aw 1 = Return () → build aw 1 = Return () →
  let run := CalendarService_init exn_str aw (at_start token) in
  run.1 = Return (mkService text2) ∧
  token_json run.2 = Some text2 ∧
  flows (auth_trace run.2) = 2%nat ∧
  token_loads (auth_trace run.2) = 1%nat.
Proof.
  intros Hp0 Hf0 Hw0 Hb0 Hverify Hp1 Hf1 Hw1 Hb1. cbn zeta.
  unfold CalendarService_init.
  rewrite (authenticate_ok aw (at_start token) text1) by done.
  cbn [token_json]. rewrite Hverify.
  rewrite (authenticate_ok aw _ text2) by done.
  cbn [fst snd token_json auth_trace auth_did at_start app].
  destruct (auth_logs_no_step (effects (verify_credentials exn_str (load_token aw (Some text1)))))
    as [Hl1 Hl2].
  change (FlowRun :: TokenWritten text1 :: ServiceBuilt text1 :: TokenLoaded :: ?l)
    with ([FlowRun; TokenWritten text1; ServiceBuilt text1; TokenLoaded] ++ l).
  rewrite !flows_app, !token_loads_app, Hl1, Hl2. done.
Qed.

End Constructor.

(** * The further properties at concrete inputs *)

(** X1 on the Monday with the meeting of the morning: the slot of 11:00
    is a candidate, the slot of 10:00 is none. *)
Lemma candidates_are_the_free_grid_slots_witness :
  ∃ out,
    find_available_slots message_of busy_monday 60 1 = Some out ∧
    slot_at_11 ∈ available_slots (response_of (returned out)) ∧
    mkTimeSlot (at_ 10 0) (at_ 11 0) ∉ available_slots (response_of (returned out)).
Proof.
  assert (1 ≤ date_of (utcnow busy_monday 2)) as Hlow by (by vm_compute).
  assert (date_of (utcnow busy_monday 2) + 1 ≤ MAXORDINAL + 1) as Hhigh
    by (by vm_compute).
  assert (freebusy_query busy_monday 1 =
          Return (mkQuery (at_ 15 0) (at_ 15 0 + US_PER_DAY) ["primary"])) as Hquery
    by (vm_compute; reflexivity).
  assert (freebusy_execute busy_monday
            (mkQuery (at_ 15 0) (at_ 15 0 + US_PER_DAY) ["primary"]) =
          Return (answer [morning_meeting])) as Hanswer
    by (vm_compute; reflexivity).
  assert (busy_of (answer [morning_meeting]) = naive_entries [morning_bounds]) as Hbusy
    by (vm_compute; reflexivity).
  pose proof (candidates_are_the_free_grid_slots message_of busy_monday 60 1
                (mkQuery (at_ 15 0) (at_ 15 0 + US_PER_DAY) ["primary"])
                (answer [morning_meeting]) [morning_bounds]) as Hfree.
  cbv zeta in Hfree.
  specialize (Hfree ltac:(done) Hlow Hhigh Hquery Hanswer Hbusy).
  destruct Hfree as (out & Hout & Hiff).
  exists out. split; [exact Hout|]. split.
  - apply Hiff. exists 0, 4. split; [lia|]. split; [by vm_compute|]. split; [lia|].
    split; [vm_compute; reflexivity|]. split; [vm_compute; reflexivity|].
    split; [by vm_compute|].
    intros c e Hin%list_elem_of_singleton. unfold morning_bounds in Hin.
    injection Hin as -> ->. right. by vm_compute.
  - intros (day & k & _ & _ & _ & _ & _ & _ & Hclear)%Hiff.
    assert ((at_ 10 0, at_ 11 0) ∈ [morning_bounds]) as Hin by (apply list_elem_of_singleton; reflexivity).
    destruct (Hclear (at_ 10 0) (at_ 11 0) Hin) as [Hle|Hle].
    + vm_compute in Hle. exact (Hle eq_refl).
    + vm_compute in Hle. exact (Hle eq_refl).
Defined.

(** X2: a free week from a Monday has five working days of 25 slots of
    an hour. *)
Lemma free_calendar_candidate_count_witness :
  ∃ out,
    find_available_slots message_of free_monday 60 7 = Some out ∧
    Z.of_nat (length (available_slots (response_of (returned out)))) = 125.
Proof.
  destruct (free_calendar_candidate_count message_of free_monday 60 7
              (mkQuery (at_ 9 0) (at_ 9 0 + 7 * US_PER_DAY) ["primary"]) (answer []))
    as (out & Hout & Hlen); [done|done|done|reflexivity|reflexivity|reflexivity|].
  exists out. split; [exact Hout|]. rewrite Hlen. reflexivity.
Defined.

(** X3: the candidates of the Monday with the meeting are among those
    of the free Monday. *)
Lemma more_busy_fewer_candidates_witness :
  ∃ out out',
    find_available_slots message_of free_monday 60 1 = Some out ∧
    find_available_slots message_of (world (at_ 9 0) [morning_meeting]) 60 1 = Some out' ∧
    length (available_slots (response_of (returned out))) = 25%nat ∧
    length (available_slots (response_of (returned out'))) = 21%nat ∧
    sublist (available_slots (response_of (returned out')))
      (available_slots (response_of (returned out))).
Proof.
  destruct (more_busy_fewer_candidates message_of free_monday
              (world (at_ 9 0) [morning_meeting]) 60 1
              (mkQuery (at_ 9 0) (at_ 9 0 + US_PER_DAY) ["primary"])
              (mkQuery (at_ 9 0) (at_ 9 0 + US_PER_DAY) ["primary"])
              (answer []) (answer [morning_meeting]) [] [morning_bounds])
    as (out & out' & Hout & Hout' & Hsub);
    [done|done|done|reflexivity|reflexivity|reflexivity|reflexivity|reflexivity
    |reflexivity|reflexivity|by intros x ?%elem_of_nil|].
  exists out, out'. split; [exact Hout|]. split; [exact Hout'|].
  split; [|split; [|exact Hsub]].
  - vm_compute in Hout. by injection Hout as <-.
  - vm_compute in Hout'. by injection Hout' as <-.
Defined.

(** X4: the meeting of the morning with bounds ending in Z. *)
Lemma aware_busy_start_fails_the_search_witness :
  ∃ q,
    freebusy_query (world (at_ 9 0) [aware_meeting]) 7 = Return q ∧
    find_available_slots message_of (world (at_ 9 0) [aware_meeting]) 60 7
      = Some (slots_failed message_of [FreeBusyCall q] TypeError).
Proof.
  eexists. split; [reflexivity|].
  apply (aware_busy_start_fails_the_search message_of (world (at_ 9 0) [aware_meeting]) 60 7
           _ (answer [aware_meeting]) aware_meeting [] (at_ 10 0));
    [done|done|done|by exists 0|reflexivity|reflexivity|reflexivity|reflexivity|].
  exists (at_ 11 0). by right.
Defined.

(** X5: a busy entry without the key [start]. *)
Lemma malformed_busy_start_fails_the_search_witness :
  ∃ q,
    freebusy_query (world (at_ 9 0) [entry_without_start]) 7 = Return q ∧
    find_available_slots message_of (world (at_ 9 0) [entry_without_start]) 60 7
      = Some (slots_failed message_of [FreeBusyCall q] (Raised "KeyError" "'start'")).
Proof.
  eexists. split; [reflexivity|].
  apply (malformed_busy_start_fails_the_search message_of
           (world (at_ 9 0) [entry_without_start]) 60 7
           _ (answer [entry_without_start]) entry_without_start []);
    [done|done|done|by exists 0|reflexivity|reflexivity|reflexivity|reflexivity].
Defined.

(** X6: a search of two days from a Saturday. *)
Lemma no_working_day_no_candidates_witness :
  ∃ q,
    freebusy_query busy_saturday 2 = Return q ∧
    find_available_slots message_of busy_saturday 60 2
      = Some (mkOutcome (no_slots_answer 2) [FreeBusyCall q]).
Proof.
  eexists. split; [reflexivity|].
  apply (no_working_day_no_candidates message_of busy_saturday 60 2 _
           (answer [morning_meeting])); [done|done| |reflexivity|reflexivity].
  intros day Hday. assert (day = 0 ∨ day = 1) as [-> | ->] by lia; by vm_compute.
Defined.

(** X7 on the Monday with the meeting: the selected slot is that of
    11:00, and the slot of 16:00 does not start before it. *)
Lemma selected_is_earliest_witness :
  ∃ out,
    -1020 < 60 ∧
    find_available_slots message_of busy_monday 60 1 = Some out ∧
    selected_slot (response_of (returned out)) = Some slot_at_11 ∧
    slot_at_16 ∈ available_slots (response_of (returned out)) ∧
    start slot_at_11 ≤ start slot_at_16.
Proof.
  destruct (selected_is_earliest message_of busy_monday 60 1 eq_refl) as (out & Hout & Hleast).
  assert (selected_slot (response_of (returned out)) = Some slot_at_11) as Hsel.
  { vm_compute in Hout. by injection Hout as <-. }
  assert (slot_at_16 ∈ available_slots (response_of (returned out))) as Hin.
  { vm_compute in Hout. injection Hout as <-. apply (list_elem_of_lookup_2 _ 20). reflexivity. }
  exists out.
  exact (conj eq_refl (conj Hout (conj Hsel (conj Hin (Hleast _ _ Hsel Hin))))).
Defined.

(** X10: the backend refuses the first attempt and accepts the second. *)
Lemma success_after_failed_attempts_witness :
  ∃ details out,
    validate_details kickoff = Return details ∧
    events_insert flaky_world 0 (event_body flaky_world details) insert_options = Raise refused ∧
    events_insert flaky_world 1 (event_body flaky_world details) insert_options
      = Return accepted_event ∧
    create_event message_of flaky_world kickoff = Some out ∧
    status (returned out) = "success" ∧
    event_id (returned out) = Some "evt1" ∧
    insert_calls (effects out) = 2%nat ∧
    waits (effects out) = [2].
Proof.
  destruct (success_after_failed_attempts message_of flaky_world kickoff _ 1 accepted_event
              eq_refl) as (out & Hout & Hret & Hcalls & Hwaits);
    [lia| |reflexivity|].
  { intros i Hi. assert (i = 0%nat) as -> by lia. by exists refused. }
  eexists _, out. split; [reflexivity|]. split; [reflexivity|]. split; [reflexivity|].
  split; [exact Hout|]. rewrite Hret. split; [reflexivity|]. split; [reflexivity|].
  split; [exact Hcalls|exact Hwaits].
Defined.

(** X11: the two insert calls of that run. *)
Lemma every_attempt_resends_the_payload_witness :
  ∃ details out,
    validate_details kickoff = Return details ∧
    create_event message_of flaky_world kickoff = Some out ∧
    insert_calls (effects out) = 2%nat ∧
    effects out !! 3%nat = Some (InsertCall (event_body flaky_world details) insert_options) ∧
    requestId (event_body flaky_world details) = "event_1793613600.0".
Proof.
  destruct (every_attempt_resends_the_payload message_of flaky_world kickoff _ eq_refl)
    as (out & Hout & Hsame).
  assert (∃ body opts, effects out !! 3%nat = Some (InsertCall body opts) ∧
            insert_calls (effects out) = 2%nat) as (body & opts & Hthird & Hcalls).
  { vm_compute in Hout. injection Hout as <-. by eexists _, _. }
  destruct (Hsame body opts (list_elem_of_lookup_2 _ _ _ Hthird)) as (-> & -> & Hid & _).
  eexists _, out. split; [reflexivity|]. split; [exact Hout|].
  split; [exact Hcalls|]. split; [exact Hthird|exact Hid].
Defined.

(** X15: the payload for the details of [kickoff], which name no time
    zone. *)
Lemma payload_carries_the_details_witness :
  ∃ details,
    validate_details kickoff = Return details ∧
    body_summary (event_body accepting_world details) = "Project Kickoff Meeting" ∧
    kickoff !! "timezone" = None ∧
    timeZone (body_start (event_body accepting_world details)) = "UTC" ∧
    timeZone (body_end (event_body accepting_world details)) = "UTC".
Proof.
  destruct (payload_carries_the_details accepting_world kickoff _ eq_refl)
    as (Hsum & _ & _ & _ & Hsame & Hzone & _).
  assert (kickoff !! "summary" = Some (VStr "Project Kickoff Meeting")) as Hk
    by (vm_compute; reflexivity).
  eexists. split; [reflexivity|]. split; [|split; [vm_compute; reflexivity|]].
  - rewrite Hk in Hsum. congruence.
  - destruct Hzone as [Hgiven|[_ Hutc]]; [discriminate Hgiven|].
    split; [exact Hutc|]. by rewrite <-Hsame.
Defined.

(** X16: the details of [kickoff] without the title, and with a key the
    model does not know. *)
Lemma refused_details_reach_no_backend_witness :
  ∃ out out',
    create_event message_of accepting_world (delete "summary" kickoff) = Some out ∧
    status (returned out) = "error" ∧ backend_calls (effects out) = 0%nat ∧
    create_event message_of accepting_world (<["location" := VStr "Room 1"]> kickoff)
      = Some out' ∧
    status (returned out') = "error" ∧ backend_calls (effects out') = 0%nat.
Proof.
  destruct (refused_details_reach_no_backend message_of accepting_world
              (delete "summary" kickoff)) as (out & e & Hout & Hret & _ & Hcalls).
  { left. exists "summary". split; [by left|]. intros s. by vm_compute. }
  destruct (refused_details_reach_no_backend message_of accepting_world
              (<["location" := VStr "Room 1"]> kickoff)) as (out' & e' & Hout' & Hret' & _ & Hcalls').
  { right. right. exists "location", (VStr "Room 1"). split; [reflexivity|].
    unfold field_names. intros Hin.
    repeat (apply elem_of_cons in Hin as [Hin|Hin]; [discriminate Hin|]).
    by apply elem_of_nil in Hin. }
  exists out, out'. rewrite Hret, Hret'.
  exact (conj Hout (conj eq_refl (conj Hcalls (conj Hout' (conj eq_refl Hcalls'))))).
Defined.

(** X17 for a call at 15:00 of a free Monday, for a week. *)
Lemma query_reaches_past_the_last_candidate_witness :
  ∃ q out,
    freebusy_query (world (at_ 15 0) []) 7 = Return q ∧
    find_available_slots message_of (world (at_ 15 0) []) 60 7 = Some out ∧
    available_slots (response_of (returned out)) !! 124%nat
      = Some (mkTimeSlot (combine (monday + 4) (time_of_day 16 0))
                (combine (monday + 4) (time_of_day 17 0))) ∧
    combine (monday + 4) (time_of_day 17 0) < timeMax q.
Proof.
  destruct (query_reaches_past_the_last_candidate message_of (world (at_ 15 0) []) 60 7
              (mkQuery (at_ 15 0) (at_ 15 0 + 7 * US_PER_DAY) ["primary"]) eq_refl)
    as (out & Hout & Hbefore); [done|].
  assert (available_slots (response_of (returned out)) !! 124%nat
            = Some (mkTimeSlot (combine (monday + 4) (time_of_day 16 0))
                      (combine (monday + 4) (time_of_day 17 0)))) as Hlast.
  { vm_compute in Hout. by injection Hout as <-. }
  eexists _, out. split; [reflexivity|]. split; [exact Hout|]. split; [exact Hlast|].
  exact (Hbefore _ (list_elem_of_lookup_2 _ _ _ Hlast)).
Defined.

(** X20: no credentials file. *)
Lemma missing_credentials_file_stops_the_constructor_witness :
  path_exists no_credentials_file 0 = false ∧
  (CalendarService_init message_of no_credentials_file (at_start (Some "old"))).1
    = Raise (Raised "FileNotFoundError" "Credentials file not found") ∧
  token_json (CalendarService_init message_of no_credentials_file (at_start (Some "old"))).2
    = Some "old".
Proof.
  split; [reflexivity|].
  rewrite (missing_credentials_file_stops_the_constructor message_of no_credentials_file
             (Some "old") eq_refl).
  split; reflexivity.
Defined.

(** X21: the credentials of the first flow are read back as expired;
    those of the second flow would be, too. *)
Lemma second_credentials_are_not_checked_witness :
  returned (verify_credentials message_of (load_token two_flows (Some "first"))) = false ∧
  returned (verify_credentials message_of (load_token two_flows (Some "second"))) = false ∧
  (CalendarService_init message_of two_flows (at_start None)).1
    = Return (mkService "second") ∧
  token_loads (auth_trace (CalendarService_init message_of two_flows (at_start None)).2)
    = 1%nat.
Proof.
  split; [reflexivity|]. split; [reflexivity|].
  destruct (second_credentials_are_not_checked message_of two_flows None "first" "second"
              eq_refl eq_refl eq_refl eq_refl eq_refl eq_refl eq_refl eq_refl eq_refl)
    as (Hservice & _ & _ & Hloads).
  exact (conj Hservice Hloads).
Defined.
